(** * niio.loaded: the neuroimaging loaders, embedded and verified

    A shallow embedding of [niio/loaded.py] (functions [load], [loadMat],
    [loadGii], [loadH5], [loadPick], [loadSurf]) and the properties that
    its specification states of them, C1 to C10.

    The Python functions perform file I/O through h5py, scipy.io, nibabel,
    numpy and pickle.  The embedding keeps the control flow of the source
    (try/except blocks, rebinding of local variables, the order of the
    library calls) and runs it in a state-and-exception monad over a
    [world]: a file system plus the table of h5py objects that have been
    opened, each with its validity flag.  The libraries are modelled as
    far as the readers use them: arrays with [squeeze], [T] and
    [column_stack]; h5py files, groups and datasets with [close];
    [os.path.splitext]; the pickle codec is a parameter. *)

From Stdlib Require Import List String Ascii ZArith Lia Bool Arith.
Import ListNotations.
Open Scope string_scope.
Open Scope Z_scope.

Set Implicit Arguments.

(* ================================================================== *)
(** ** Python exceptions *)
(* ================================================================== *)

Module Py.

(** The exception classes that the module or the libraries it calls can
    raise.  [IOError] is an alias of [OSError] in Python 3. *)
Inductive exn_class :=
| AssertionError | KeyError | IndexError | OSError | FileNotFoundError
| Warning | ValueError | TypeError | AttributeError | UnboundLocalError
| ImageFileError | UnpicklingError | EOFError.

Definition exn_class_eqb (a b : exn_class) : bool :=
  match a, b with
  | AssertionError, AssertionError | KeyError, KeyError
  | IndexError, IndexError | OSError, OSError
  | FileNotFoundError, FileNotFoundError | Warning, Warning
  | ValueError, ValueError | TypeError, TypeError
  | AttributeError, AttributeError | UnboundLocalError, UnboundLocalError
  | ImageFileError, ImageFileError | UnpicklingError, UnpicklingError
  | EOFError, EOFError => true
  | _, _ => false
  end.

(** [issubclass a b]: the part of the built-in hierarchy an [except]
    clause of the module can observe. *)
Definition issubclass (a b : exn_class) : bool :=
  exn_class_eqb a b ||
  match a, b with
  | FileNotFoundError, OSError => true
  | _, _ => false
  end.

(** An exception instance: its class and its argument (message or key). *)
Record exn := Exn { exn_cls : exn_class; exn_arg : string }.

Definition isinstance (e : exn) (c : exn_class) : bool :=
  issubclass (exn_cls e) c.

Inductive result (A : Type) :=
| Ok (a : A)
| Raise (e : exn).
Arguments Ok {A} a.
Arguments Raise {A} e.

Definition is_ok {A} (r : result A) : bool :=
  match r with Ok _ => true | Raise _ => false end.

(** Truthiness of the values the module tests with [if x:] / [if not x:]. *)
Definition truthy_str (s : option string) : bool :=
  match s with
  | None => false
  | Some s => negb (String.eqb s "")
  end.

Definition truthy_list {A} (l : option (list A)) : bool :=
  match l with
  | None | Some [] => false
  | Some (_ :: _) => true
  end.

(** [l[j]] on a Python list: negative indices count from the end, anything
    out of range raises [IndexError]. *)
Definition list_getitem {A} (l : list A) (j : Z) : result A :=
  let n := Z.of_nat (List.length l) in
  let i := if j <? 0 then j + n else j in
  if (0 <=? i) && (i <? n) then
    match nth_error l (Z.to_nat i) with
    | Some a => Ok a
    | None => Raise (Exn IndexError "list index out of range")
    end
  else Raise (Exn IndexError "list index out of range").

(** Dictionaries keep insertion order, so they are association lists whose
    keys are distinct. *)
Fixpoint dict_get {V} (d : list (string * V)) (k : string) : option V :=
  match d with
  | [] => None
  | (k', v) :: d' => if String.eqb k' k then Some v else dict_get d' k
  end.

(** [d[k] = v]: an existing key keeps its position, a new key goes last. *)
Fixpoint dict_set {V} (d : list (string * V)) (k : string) (v : V)
  : list (string * V) :=
  match d with
  | [] => [(k, v)]
  | (k', v') :: d' =>
      if String.eqb k' k then (k', v) :: d' else (k', v') :: dict_set d' k v
  end.

Definition dict_keys {V} (d : list (string * V)) : list string := map fst d.

(** [k in keys] for a list of strings. *)
Definition str_in (k : string) (keys : list string) : bool :=
  existsb (String.eqb k) keys.

(** [s.startswith(c)] for a one-character prefix. *)
Definition startswith (s : string) (c : ascii) : bool :=
  match s with
  | String c' _ => Ascii.eqb c' c
  | EmptyString => false
  end.

End Py.
Import Py.

(* ================================================================== *)
(** ** numpy arrays *)
(* ================================================================== *)

Module Np.

(** An n-dimensional array: its shape and its elements in row-major (C)
    order. *)
Record ndarray := NdArray { shape : list nat; data : list Z }.

Definition prod (sh : list nat) : nat := fold_right Nat.mul 1%nat sh.

(** The array holds as many elements as its shape announces. *)
Definition wf (a : ndarray) : Prop := List.length (data a) = prod (shape a).

Definition ndim (a : ndarray) : nat := List.length (shape a).

Definition not_one (d : nat) : bool := negb (d =? 1)%nat.

(** [a.squeeze()]: drop every axis of length one; the elements stay. *)
Definition squeeze (a : ndarray) : ndarray :=
  NdArray (filter not_one (shape a)) (data a).

(** All multi-indices of a shape, in row-major order. *)
Fixpoint indices (sh : list nat) : list (list nat) :=
  match sh with
  | [] => [[]]
  | d :: sh' =>
      flat_map (fun i => map (cons i) (indices sh')) (seq 0 d)
  end.

(** Row-major offset of a multi-index. *)
Definition offset (sh idx : list nat) : nat :=
  fold_left (fun acc di => (acc * fst di + snd di)%nat) (combine sh idx) 0%nat.

(** [a.T]: the axes reversed, so [a.T[i_n,...,i_1] = a[i_1,...,i_n]]. *)
Definition transpose (a : ndarray) : ndarray :=
  NdArray (rev (shape a))
          (map (fun idx => nth (offset (shape a) (rev idx)) (data a) 0)
               (indices (rev (shape a)))).

(** What [np.column_stack] does to each argument: an array of fewer than
    two dimensions becomes a column ([array(v, ndmin=2).T]). *)
Definition as_column (a : ndarray) : ndarray :=
  match shape a with
  | [] => NdArray [1%nat; 1%nat] (data a)
  | [n] => NdArray [n; 1%nat] (data a)
  | _ => a
  end.

Definition chunk (sz i : nat) (l : list Z) : list Z :=
  firstn sz (skipn (i * sz) l).

Definition axis1 (a : ndarray) : nat := nth 1 (shape a) 0%nat.

Definition shape_eqb (s t : list nat) : bool :=
  if list_eq_dec Nat.eq_dec s t then true else false.

(** [b] can be joined to an array of shape [d0 :: _ :: tl] along axis 1. *)
Definition stackable (d0 : nat) (tl : list nat) (b : ndarray) : bool :=
  match shape b with
  | e0 :: _ :: tl' => (e0 =? d0)%nat && shape_eqb tl' tl
  | _ => false
  end.

(** [np.concatenate(arrays, 1)] on arrays of two or more dimensions. *)
Definition concatenate1 (arrays : list ndarray) : result ndarray :=
  match arrays with
  | [] => Raise (Exn ValueError "need at least one array to concatenate")
  | a :: rest =>
      match shape a with
      | d0 :: _ :: tl =>
          if forallb (stackable d0 tl) rest then
            Ok (NdArray
                  (d0 :: fold_right Nat.add 0%nat (map axis1 arrays) :: tl)
                  (flat_map
                     (fun i =>
                        flat_map
                          (fun b => chunk (axis1 b * prod tl) i (data b))
                          arrays)
                     (seq 0 d0)))
          else Raise (Exn ValueError "all the input array dimensions except for the concatenation axis must match exactly")
      | _ => Raise (Exn ValueError "axis 1 is out of bounds")
      end
  end.

(** [np.column_stack(tup)]. *)
Definition column_stack (tup : list ndarray) : result ndarray :=
  concatenate1 (map as_column tup).

(** An array is squeezed when none of its axes has length one. *)
Definition squeezed (a : ndarray) : Prop :=
  Forall (fun d => not_one d = true) (shape a).

End Np.
Import Np.

(* ================================================================== *)
(** ** The world: files and h5py objects *)
(* ================================================================== *)

(** A node of an HDF5 file: a dataset or a group of named nodes. *)
Inductive h5node :=
| Dataset (a : ndarray)
| Group (members : list (string * h5node)).

(** What nibabel makes of a file. *)
Inductive image :=
| GiftiImage (darrays : list ndarray)
| Nifti2Image (dataobj : ndarray)
| OtherImage.

(** What a path holds, by the reader that can parse it. *)
Inductive content :=
| HDF5 (root : list (string * h5node))        (* HDF5, MATLAB v7.3 included *)
| MatV5 (variables : list (string * ndarray)) (* legacy MATLAB container *)
| NbImage (img : image)                       (* an image nibabel can load *)
| FsGeometry (vertices faces : ndarray)       (* FreeSurfer geometry *)
| Bytes (bs : list Byte.byte).                (* any other file *)

(** An h5py object ([File], [Group] or [Dataset]) that the process holds.
    [h_file] is the table index of the [File] it was reached from;
    [h_valid] is h5py's [id.valid]. *)
Record h5entry := H5Entry {
  h_file : nat;
  h_is_file : bool;
  h_node : h5node;
  h_valid : bool
}.

Record world := World {
  fs : list (string * content);
  objs : list h5entry
}.

(** A Python reference to an h5py object: its index in [objs]. *)
Definition h5obj := nat.

(** ** The monad: state threading with exceptions; the state survives a
    raise, so that what an error path leaves open stays visible. *)
Definition M (A : Type) : Type := world -> result A * world.

Definition ret {A} (a : A) : M A := fun w => (Ok a, w).

Definition raise {A} (c : exn_class) (arg : string) : M A :=
  fun w => (Raise (Exn c arg), w).

Definition bind {A B} (m : M A) (f : A -> M B) : M B :=
  fun w =>
    match m w with
    | (Ok a, w') => f a w'
    | (Raise e, w') => (Raise e, w')
    end.

Declare Scope py_scope.
Delimit Scope py_scope with py.
Notation "x <- m ;; k" := (bind m (fun x => k))
  (at level 61, m at next level, right associativity) : py_scope.
Notation "m ;;; k" := (bind m (fun _ => k))
  (at level 61, right associativity) : py_scope.
Open Scope py_scope.

(** [lift r]: a pure library call that may raise. *)
Definition lift {A} (r : result A) : M A := fun w => (r, w).

(** [try: body / except c: handler]. *)
Definition try_except {A} (body : M A) (c : exn_class) (handler : exn -> M A)
  : M A :=
  fun w =>
    match body w with
    | (Raise e, w') =>
        if isinstance e c then handler e w' else (Raise e, w')
    | r => r
    end.

(** [try: body / except c: handler / else: orelse]; the [else] suite runs
    outside the protection of the [try]. *)
Definition try_except_else {A B} (body : M A) (c : exn_class)
  (handler : exn -> M B) (orelse : A -> M B) : M B :=
  fun w =>
    match body w with
    | (Ok a, w') => orelse a w'
    | (Raise e, w') =>
        if isinstance e c then handler e w' else (Raise e, w')
    end.

(** [assert cond]. *)
Definition assert_ (cond : bool) : M unit :=
  if cond then ret tt else raise AssertionError "".

(** [for x in xs: acc = body acc x]. *)
Fixpoint for_ {A S} (xs : list A) (body : S -> A -> M S) (acc : S) : M S :=
  match xs with
  | [] => ret acc
  | x :: xs' => acc' <- body acc x ;; for_ xs' body acc'
  end.

(** [os.path.exists(p)]. *)
Definition os_path_exists (p : string) : M bool :=
  fun w => (Ok (match dict_get (fs w) p with Some _ => true | None => false end), w).

(* ------------------------------------------------------------------ *)
(** *** h5py

    The part of the h5py API that the readers call, with the behaviour
    its documentation gives: [File.close()] closes the file and "all open
    objects become invalid"; only [File] has a [close] method; a name
    that a group does not hold is a [KeyError]; an operation on an
    invalid object is refused by HDF5 ("Not a location", "Invalid
    location identifier"), which h5py raises as a [ValueError].  Names
    are link names, looked up among the direct members of a group. *)

Module H5py.

Definition entry (o : h5obj) (w : world) : option h5entry :=
  nth_error (objs w) o.

Definition alloc (e : h5entry) : M h5obj :=
  fun w => (Ok (List.length (objs w)), World (fs w) (objs w ++ [e])).

Definition invalid {A} : M A :=
  raise ValueError "Invalid location identifier".

(** [h5py.File(path, 'r')]: anything that is not an HDF5 file, a missing
    file included, is an [OSError]. *)
Definition File (path : string) : M h5obj :=
  fun w =>
    match dict_get (fs w) path with
    | Some (HDF5 root) =>
        let id := List.length (objs w) in
        alloc (H5Entry id true (Group root) true) w
    | _ => (Raise (Exn OSError "Unable to open file"), w)
    end.

(** [obj[name]]: an absent name is a [KeyError]; an object whose file was
    closed is invalid, and h5py reports that as a [ValueError]. *)
Definition getitem (o : h5obj) (name : string) : M h5obj :=
  fun w =>
    match entry o w with
    | Some e =>
        if h_valid e then
          match h_node e with
          | Group members =>
              match dict_get members name with
              | Some n => alloc (H5Entry (h_file e) false n true) w
              | None => (Raise (Exn KeyError name), w)
              end
          | Dataset _ =>
              (Raise (Exn ValueError "Field names only allowed for compound types"), w)
          end
        else invalid w
    | None => invalid w
    end.

(** Iterating [obj.keys()]: the member names of a group or file.  The view
    itself is lazy; the names are read, and an invalid object noticed, when
    the loop starts. *)
Definition keys (o : h5obj) : M (list string) :=
  fun w =>
    match entry o w with
    | Some e =>
        match h_node e with
        | Group members =>
            if h_valid e then (Ok (dict_keys members), w) else invalid w
        | Dataset _ =>
            (Raise (Exn AttributeError "'Dataset' object has no attribute 'keys'"), w)
        end
    | None => invalid w
    end.

Definition invalidate (f : nat) (e : h5entry) : h5entry :=
  if (h_file e =? f)%nat
  then H5Entry (h_file e) (h_is_file e) (h_node e) false
  else e.

(** [obj.close()].  Only [File] has the method: "Close the file.  All open
    objects become invalid".  A [Group] or [Dataset] has no [close]
    attribute. *)
Definition close (o : h5obj) : M unit :=
  fun w =>
    match entry o w with
    | Some e =>
        if h_is_file e then
          (Ok tt, World (fs w) (map (invalidate (h_file e)) (objs w)))
        else
          (Raise (Exn AttributeError "object has no attribute 'close'"), w)
    | None => invalid w
    end.

(** [np.asarray(obj)] for an h5py object: reads the dataset from the file.
    The elements of an array made from a group are not numeric and are not
    represented; the statements below only materialise datasets. *)
Definition asarray (o : h5obj) : M ndarray :=
  fun w =>
    match entry o w with
    | Some e =>
        if h_valid e then
          match h_node e with
          | Dataset a => (Ok a, w)
          | Group _ => (Raise (Exn TypeError "not a dataset"), w)
          end
        else invalid w
    | None => invalid w
    end.

(** The [File] objects that are still open. *)
Definition open_files (w : world) : list h5entry :=
  filter (fun e => h_is_file e && h_valid e) (objs w).

(** [o] is an object of the table that has not been invalidated. *)
Definition is_open (o : h5obj) (w : world) : bool :=
  match entry o w with
  | Some e => h_valid e
  | None => false
  end.

End H5py.

(** [extends w w']: [w'] has the files of [w] and the objects of [w],
    untouched, followed by new ones. *)
Definition extends (w w' : world) : Prop :=
  fs w' = fs w /\ exists l, objs w' = (objs w ++ l)%list.

(** A computation that closes nothing. *)
Definition monotone {A} (m : M A) : Prop :=
  forall w, extends w (snd (m w)).

(* ------------------------------------------------------------------ *)
(** *** scipy.io, nibabel *)

(** A value held in a Python dictionary of the MATLAB reader: an array, or
    an h5py object not read yet. *)
Inductive pyvalue :=
| VArray (a : ndarray)
| VH5 (o : h5obj).

(** [np.asarray(v)]. *)
Definition np_asarray (v : pyvalue) : M ndarray :=
  match v with
  | VArray a => ret a
  | VH5 o => H5py.asarray o
  end.

(** [scipy.io.loadmat(path)]: the variables of a legacy MATLAB file as a
    dictionary. *)
Definition sio_loadmat (path : string) : M (list (string * pyvalue)) :=
  fun w =>
    match dict_get (fs w) path with
    | Some (MatV5 vars) => (Ok (map (fun kv => (fst kv, VArray (snd kv))) vars), w)
    | Some _ => (Raise (Exn ValueError "Unknown mat file type"), w)
    | None => (Raise (Exn FileNotFoundError path), w)
    end.

(** [nibabel.load(path)]. *)
Definition nb_load (path : string) : M image :=
  fun w =>
    match dict_get (fs w) path with
    | Some (NbImage img) => (Ok img, w)
    | Some _ => (Raise (Exn ImageFileError path), w)
    | None => (Raise (Exn FileNotFoundError path), w)
    end.

(** [img.darrays]: only a GIFTI image has the attribute. *)
Definition darrays_of (img : image) : M (list ndarray) :=
  match img with
  | GiftiImage ds => ret ds
  | _ => raise AttributeError "object has no attribute 'darrays'"
  end.

(** [nibabel.freesurfer.read_geometry(path)]. *)
Definition read_geometry (path : string) : M (ndarray * ndarray) :=
  fun w =>
    match dict_get (fs w) path with
    | Some (FsGeometry v f) => (Ok (v, f), w)
    | Some _ => (Raise (Exn ValueError "File does not appear to be a Freesurfer surface"), w)
    | None => (Raise (Exn FileNotFoundError path), w)
    end.

(* ================================================================== *)
(** ** The readers of [niio/loaded.py] *)
(* ================================================================== *)

(* ------------------------------------------------------------------ *)
(** *** loadMat *)

(** The object bound to the local [matData]: an h5py [File], or a plain
    dictionary (what [sio.loadmat] returns, and what the dictionary
    comprehension of the default branch builds). *)
Inductive container :=
| MFile (f : h5obj)
| MDict (d : list (string * pyvalue)).

(** [type(matData) == h5py._hl.files.File]. *)
Definition is_h5py_File (matData : container) : bool :=
  match matData with
  | MFile _ => true
  | MDict _ => false
  end.

(** [matData.keys()]. *)
Definition container_keys (matData : container) : M (list string) :=
  match matData with
  | MFile f => H5py.keys f
  | MDict d => ret (dict_keys d)
  end.

(** [matData[k]]. *)
Definition container_getitem (matData : container) (k : string) : M pyvalue :=
  match matData with
  | MFile f => o <- H5py.getitem f k ;; ret (VH5 o)
  | MDict d =>
      match dict_get d k with
      | Some v => ret v
      | None => raise KeyError k
      end
  end.

(** [matData.close()]. *)
Definition container_close (matData : container) : M unit :=
  match matData with
  | MFile f => H5py.close f
  | MDict _ => raise AttributeError "'dict' object has no attribute 'close'"
  end.

(** Lines 46-53: h5py first, scipy.io second. *)
Definition loadMat_open (infile : string) : M container :=
  try_except (f <- H5py.File infile ;; ret (MFile f)) OSError
    (fun _ =>
       try_except (d <- sio_loadmat infile ;; ret (MDict d)) FileNotFoundError
         (fun _ => raise Warning "Cannot read with h5py or scipy.io.")).

(** Lines 56-63, the branch [if datasets:].  The result is the local
    environment after the branch: [matData], and [mat], which stays
    unbound ([None]) when the [except KeyError: pass] clause is taken. *)
Definition loadMat_named (matData : container) (datasets : string)
  : M (container * option ndarray) :=
  try_except_else
    (v <- container_getitem matData datasets ;;
     a <- np_asarray v ;;
     ret (squeeze a))
    KeyError
    (fun _ => ret (matData, None))
    (fun mat =>
       let mat := if is_h5py_File matData then transpose mat else mat in
       ret (matData, Some mat)).

(** Lines 67-78, the branch [else:].  [matData] is rebound to the
    dictionary of the non-private entries before the two type tests that
    follow. *)
Definition loadMat_default (matData : container)
  : M (container * option ndarray) :=
  ks <- container_keys matData ;;
  let keys := filter (fun k => startswith k "_") ks in
  ks' <- container_keys matData ;;
  d <- for_ (filter (fun k => negb (str_in k keys)) ks')
            (fun acc k => v <- container_getitem matData k ;;
                          ret (dict_set acc k v))
            [] ;;
  let matData := MDict d in
  key <- lift (list_getitem (dict_keys d) 0) ;;
  v <- container_getitem matData key ;;
  a <- np_asarray v ;;
  let mat := squeeze a in
  let mat := if is_h5py_File matData then transpose mat else mat in
  ret (matData, Some mat).

(** [return mat]: reading a local that was never assigned raises
    [UnboundLocalError]. *)
Definition return_local {A} (name : string) (v : option A) : M A :=
  match v with
  | Some a => ret a
  | None => raise UnboundLocalError name
  end.

Definition loadMat (infile : string) (datasets : option string) : M ndarray :=
  matData <- loadMat_open infile ;;
  env <- (if truthy_str datasets
          then loadMat_named matData (match datasets with Some s => s | None => "" end)
          else loadMat_default matData) ;;
  let matData := fst env in
  let mat := snd env in
  (* if h5py, close object *)
  (if is_h5py_File matData then container_close matData else ret tt) ;;;
  return_local "mat" mat.

(* ------------------------------------------------------------------ *)
(** *** loadGii *)

(** The [datasets] argument of [loadGii]: an [int], a one-dimensional
    [np.ndarray] of indices, or a list of indices (default [[]]). *)
Inductive selector :=
| SelInt (j : Z)
| SelArray (a : list Z)
| SelList (l : list Z).

(** Lines 103-108. *)
Definition normalize_selector (gii : image) (datasets : selector) : M (list Z) :=
  match datasets with
  | SelInt j => ret [j]
  | SelArray a => ret a
  | SelList [] =>
      ds <- darrays_of gii ;;
      ret (map Z.of_nat (seq 0 (List.length ds)))
  | SelList l => ret l
  end.

(** The indices a selector stands for on an image of [n] data arrays: a
    single index alone, an index array as a list, an empty list all of
    [0..n-1] in order, any other list itself. *)
Definition selector_indices (n : nat) (datasets : selector) : list Z :=
  match datasets with
  | SelInt j => [j]
  | SelArray a => a
  | SelList [] => map Z.of_nat (seq 0 n)
  | SelList l => l
  end.

Definition loadGii (infile : string) (datasets : selector) (group : option string)
  : M ndarray :=
  gii <- try_except (nb_load infile) OSError
           (fun _ => raise Warning (infile ++ " cannot be read.")) ;;
  datasets <- normalize_selector gii datasets ;;
  match gii with
  | GiftiImage darrays =>
      darray <- for_ datasets
                  (fun darray j =>
                     a <- lift (list_getitem darrays j) ;;
                     ret (darray ++ [squeeze a])%list)
                  [] ;;
      stacked <- lift (column_stack darray) ;;
      ret (squeeze stacked)
  | Nifti2Image dataobj => ret (squeeze dataobj)
  | OtherImage => raise OSError "Cannot access array data."
  end.

(* ------------------------------------------------------------------ *)
(** *** loadH5 *)

(** Lines 145-152. *)
Definition loadH5_resolve (h5 : h5obj) (group : option string) : M h5obj :=
  if truthy_str group then
    let g := match group with Some g => g | None => "" end in
    try_except
      (h5Lower <- H5py.getitem h5 g ;;
       H5py.close h5 ;;;
       ret h5Lower)
      KeyError
      (fun _ => raise Warning ("File does not have group " ++ g ++ "."))
  else ret h5.

Definition loadH5 (infile : string) (datasets : option (list string))
  (group : option string) : M (list (string * ndarray)) :=
  ex <- os_path_exists infile ;;
  assert_ ex ;;;
  h5 <- try_except (H5py.File infile) OSError
          (fun _ => raise Warning "File cannot be loaded.") ;;
  h5Lower <- loadH5_resolve h5 group ;;
  datasets <- (if negb (truthy_list datasets)
               then H5py.keys h5Lower
               else ret (match datasets with Some l => l | None => [] end)) ;;
  data <- for_ datasets
            (fun data k =>
               try_except
                 (o <- H5py.getitem h5Lower k ;;
                  a <- H5py.asarray o ;;
                  ret (dict_set data k a))
                 KeyError
                 (fun _ => raise Warning ("File does not have attribute " ++ k ++ ".")))
            [] ;;
  H5py.close h5Lower ;;;
  ret data.

(* ------------------------------------------------------------------ *)
(** *** loadSurf *)

Definition loadSurf (inFile : string) (gifti : bool) : M (list ndarray) :=
  vf <- (if gifti then
           surf <- nb_load inFile ;;
           darrays <- darrays_of surf ;;
           vertices <- lift (list_getitem darrays 0) ;;
           faces <- lift (list_getitem darrays 1) ;;
           ret (vertices, faces)
         else
           surf <- read_geometry inFile ;;
           ret (fst surf, snd surf)) ;;
  ret [fst vf; snd vf].

(* ------------------------------------------------------------------ *)
(** *** loadPick *)

(** The file system after [path] has been written with [c]. *)
Definition write_file (path : string) (c : content) : M unit :=
  fun w => (Ok tt, World (dict_set (fs w) path c) (objs w)).

(** [open(path, "rb")]: what the path holds; a missing file is a
    [FileNotFoundError], which is an [IOError]. *)
Definition open_rb (path : string) : M content :=
  fun w =>
    match dict_get (fs w) path with
    | Some c => (Ok c, w)
    | None => (Raise (Exn FileNotFoundError path), w)
    end.

Section Pickle.

(** The pickle library is taken as given: the Python objects and the
    decoder of a byte stream, which returns the object or raises
    ([UnpicklingError], [EOFError], ...). *)
Variable pyobj : Type.
Variable pickle_loads : list Byte.byte -> result pyobj.

(** [pickle.load(f)]. *)
Definition pickle_load (f : content) : M pyobj :=
  match f with
  | Bytes bs => lift (pickle_loads bs)
  | _ => raise UnpicklingError "invalid load key"
  end.

(** [datasets] and [group] are accepted and never read. *)
Definition loadPick {D G : Type} (infile : string) (datasets : D) (group : G)
  : M pyobj :=
  ex <- os_path_exists infile ;;
  assert_ ex ;;;
  try_except
    (inPickle <- open_rb infile ;;
     pick <- pickle_load inPickle ;;
     ret pick)
    OSError
    (fun _ => raise Warning "File cannot be loaded.").

(** The encoder, for the round trip: [None] when the object cannot be
    pickled. *)
Variable pickle_dumps : pyobj -> option (list Byte.byte).

(** [with open(path, "wb") as f: pickle.dump(obj, f)]. *)
Definition pickle_dump_to (path : string) (obj : pyobj) : M unit :=
  match pickle_dumps obj with
  | Some bs => write_file path (Bytes bs)
  | None => raise TypeError "cannot pickle object"
  end.

End Pickle.

(* ------------------------------------------------------------------ *)
(** *** load *)

Module OsPath.

(** [p.rfind(c)]: the last index of [c] in [p], or -1. *)
Fixpoint rfind_from (c : ascii) (p : string) (i last : Z) : Z :=
  match p with
  | EmptyString => last
  | String c' p' => rfind_from c p' (i + 1) (if Ascii.eqb c' c then i else last)
  end.

Definition rfind (p : string) (c : ascii) : Z := rfind_from c p 0 (-1).

(** [p[:n]] and [p[n:]]. *)
Definition prefix_to (n : nat) (p : string) : string := substring 0 n p.
Definition suffix_from (n : nat) (p : string) : string :=
  substring n (String.length p - n) p.

(** The [while] loop of [genericpath._splitext], which skips the leading
    dots of the file name; [steps] is [dotIndex - filenameIndex]. *)
Fixpoint skip_leading_dots (p : string) (extsep : ascii)
  (filenameIndex steps dotIndex : nat) : string * string :=
  match steps with
  | O => (p, "")
  | S steps' =>
      match String.get filenameIndex p with
      | Some c =>
          if Ascii.eqb c extsep
          then skip_leading_dots p extsep (S filenameIndex) steps' dotIndex
          else (prefix_to dotIndex p, suffix_from dotIndex p)
      | None => (prefix_to dotIndex p, suffix_from dotIndex p)
      end
  end.

(** [genericpath._splitext(p, sep, None, extsep)]. *)
Definition _splitext (p : string) (sep extsep : ascii) : string * string :=
  let sepIndex := rfind p sep in
  let dotIndex := rfind p extsep in
  if dotIndex >? sepIndex then
    let filenameIndex := sepIndex + 1 in
    skip_leading_dots p extsep (Z.to_nat filenameIndex)
      (Z.to_nat (dotIndex - filenameIndex)) (Z.to_nat dotIndex)
  else (p, "").

(** [os.path.splitext(p)] (posixpath). *)
Definition splitext (p : string) : string * string := _splitext p "/" ".".

End OsPath.

Section Load.

(** [load] forwards its keyword options, whatever they are, to a reader
    that it looks up by name when it runs: the options [K], the payload
    [R] and the four readers are parameters of the dispatcher. *)
Variables K R : Type.

Record reader_table := ReaderTable {
  loadMat_entry : string -> K -> M R;
  loadGii_entry : string -> K -> M R;
  loadH5_entry : string -> K -> M R;
  loadPick_entry : string -> K -> M R
}.

Variable readers : reader_table.

Definition function_map : list (string * (string -> K -> M R)) :=
  [ (".mat", loadMat_entry readers);
    (".gii", loadGii_entry readers);
    (".h5", loadH5_entry readers);
    (".p", loadPick_entry readers) ].

Definition load (datafile : string) (kwargs : K) : M R :=
  ex <- os_path_exists datafile ;;
  assert_ ex ;;;
  let (filename, file_extension) := OsPath.splitext datafile in
  match dict_get function_map file_extension with
  | Some reader => reader datafile kwargs
  | None => raise KeyError file_extension
  end.

End Load.

(** The extensions that [function_map] registers. *)
Definition supported_extensions : list string := [".mat"; ".gii"; ".h5"; ".p"].

(** ASCII lower-casing, to speak of suffixes that differ only in case. *)
Definition lower_ascii (c : ascii) : ascii :=
  let n := nat_of_ascii c in
  if ((65 <=? n) && (n <=? 90))%nat then ascii_of_nat (n + 32) else c.

Fixpoint lower (s : string) : string :=
  match s with
  | EmptyString => EmptyString
  | String c s' => String (lower_ascii c) (lower s')
  end.

(* ------------------------------------------------------------------ *)
(** *** A pickle codec to run [loadPick] on

    The fragment of pickle protocol 2 for [None], [True], [False] and the
    integers 0..255: [PROTO 2], one opcode, [STOP]. *)

Module MiniPickle.

Inductive pyobj :=
| PyNone
| PyBool (b : bool)
| PyInt (n : Byte.byte).

Definition PROTO : Byte.byte := Byte.x80.
Definition STOP : Byte.byte := Byte.x2e.
Definition NONE : Byte.byte := Byte.x4e.
Definition NEWTRUE : Byte.byte := Byte.x88.
Definition NEWFALSE : Byte.byte := Byte.x89.
Definition BININT1 : Byte.byte := Byte.x4b.

Definition dumps (o : pyobj) : option (list Byte.byte) :=
  Some (match o with
        | PyNone => [PROTO; Byte.x02; NONE; STOP]
        | PyBool true => [PROTO; Byte.x02; NEWTRUE; STOP]
        | PyBool false => [PROTO; Byte.x02; NEWFALSE; STOP]
        | PyInt n => [PROTO; Byte.x02; BININT1; n; STOP]
        end).

Definition invalid_load_key : result pyobj :=
  Raise (Exn UnpicklingError "invalid load key").

Definition loads (bs : list Byte.byte) : result pyobj :=
  match bs with
  | [] => Raise (Exn EOFError "Ran out of input")
  | [p; v; op; s] =>
      if Byte.eqb p PROTO && Byte.eqb v Byte.x02 && Byte.eqb s STOP then
        if Byte.eqb op NONE then Ok PyNone
        else if Byte.eqb op NEWTRUE then Ok (PyBool true)
        else if Byte.eqb op NEWFALSE then Ok (PyBool false)
        else invalid_load_key
      else invalid_load_key
  | [p; v; op; n; s] =>
      if Byte.eqb p PROTO && Byte.eqb v Byte.x02 && Byte.eqb s STOP
         && Byte.eqb op BININT1
      then Ok (PyInt n) else invalid_load_key
  | _ => invalid_load_key
  end.

End MiniPickle.

(** What [load] can return: an array, a mapping of arrays, or an object. *)
Inductive payload :=
| PArray (a : ndarray)
| PMapping (d : list (string * ndarray))
| PObject (o : MiniPickle.pyobj).

Definition fmap {A B} (f : A -> B) (m : M A) : M B := a <- m ;; ret (f a).

(** The four readers as [load(path)] reaches them when no keyword option is
    given: every optional parameter at its default. *)
Definition readers_no_options : reader_table unit payload :=
  ReaderTable
    (fun p _ => fmap PArray (loadMat p None))
    (fun p _ => fmap PArray (loadGii p (SelList []) None))
    (fun p _ => fmap PMapping (loadH5 p None None))
    (fun p _ => fmap PObject (loadPick MiniPickle.loads p (@None unit) (@None unit))).

(* ================================================================== *)
(** ** Sample worlds *)
(* ================================================================== *)

Definition arr3x4 : ndarray :=
  NdArray [3%nat; 4%nat] [0;1;2;3; 4;5;6;7; 8;9;10;11].

(** An HDF5-backed MATLAB file with one variable, a legacy MATLAB file with
    the same variable, an HDF5 file with a group, GIFTI images, a pickle. *)
Definition sample_fs : list (string * content) :=
  [ ("v73.mat", HDF5 [("data", Dataset arr3x4)]);
    ("v5.mat", MatV5 [("__header__", NdArray [] [0]);
                      ("__globals__", NdArray [0%nat] []);
                      ("data", arr3x4)]);
    ("store.h5", HDF5 [("a", Dataset arr3x4);
                       ("subgroup", Group [("x", Dataset arr3x4)])]);
    ("ones.gii", NbImage (GiftiImage [NdArray [1%nat] [7];
                                      NdArray [1%nat] [8];
                                      NdArray [1%nat] [9]]));
    ("func.gii", NbImage (GiftiImage [NdArray [2%nat; 1%nat] [1; 2];
                                      NdArray [2%nat] [3; 4];
                                      NdArray [1%nat; 2%nat] [5; 6]]));
    ("mesh.surf.gii",
      NbImage (GiftiImage [NdArray [3%nat; 3%nat] [0;0;0; 1;0;0; 0;1;0];
                           NdArray [1%nat; 3%nat] [0; 1; 7]]));
    ("scan.MAT", MatV5 [("data", arr3x4)]);
    ("notes", Bytes []);
    ("obj.p", Bytes [Byte.x80; Byte.x02; Byte.x4b; Byte.x2a; Byte.x2e]) ].

Definition sample_world : world := World sample_fs [].

(* ================================================================== *)
(** ** Frame conditions and a second sample world *)
(* ================================================================== *)

(** A computation that leaves the file system as it found it. *)
Definition readonly {A} (m : M A) : Prop :=
  forall w, fs (snd (m w)) = fs w.

(** A computation that leaves the whole world as it found it: no file
    written, no h5py object created or closed. *)
Definition stateless {A} (m : M A) : Prop :=
  forall w, snd (m w) = w.

(** [returns m P]: whenever [m] returns a value, the value satisfies [P]. *)
Definition returns {A} (m : M A) (P : A -> Prop) : Prop :=
  forall w a w', m w = (Ok a, w') -> P a.

(** [j] is an index Python accepts on a list of [n] elements. *)
Definition index_in_range (n : nat) (j : Z) : bool :=
  (- Z.of_nat n <=? j) && (j <? Z.of_nat n).

(** [k] is a private key of the MATLAB readers. *)
Definition private_key (k : string) : bool := startswith k "_".

Definition vec3 : ndarray := NdArray [1%nat; 3%nat] [1; 2; 3].

Definition more_fs : list (string * content) :=
  [ ("legacy.mat", MatV5 [("__header__", NdArray [] [0]);
                          ("__version__", NdArray [] [1]);
                          ("__globals__", NdArray [0%nat] []);
                          ("X", vec3);
                          ("Y", arr3x4)]);
    ("header_only.mat", MatV5 [("__header__", NdArray [] [0])]);
    ("mixed73.mat", HDF5 [("_meta", Dataset vec3);
                          ("data", Dataset arr3x4);
                          ("refs", Group [])]);
    ("private73.mat", HDF5 [("_meta", Dataset vec3)]);
    ("flat.h5", HDF5 [("a", Dataset arr3x4); ("b", Dataset vec3)]);
    ("nested.h5", HDF5 [("top", Dataset vec3);
                        ("grp", Group [("x", Dataset arr3x4)])]);
    ("vol.nii", NbImage (Nifti2Image (NdArray [2%nat; 1%nat; 2%nat] [1; 2; 3; 4])));
    ("old.img", NbImage OtherImage);
    ("thickness.gii", NbImage (GiftiImage [NdArray [3%nat; 1%nat] [5; 6; 7];
                                           NdArray [3%nat] [8; 9; 10]]));
    ("empty.gii", NbImage (GiftiImage []));
    ("lh.white", FsGeometry (NdArray [3%nat; 3%nat] [0;0;0; 1;0;0; 0;1;0])
                            (NdArray [1%nat; 3%nat] [0; 1; 2]));
    ("text.p", Bytes [Byte.x68; Byte.x69]);
    ("sub.mat/readme", Bytes []);
    ("out/run.1/data.h5", HDF5 [("a", Dataset vec3)]) ].

Definition more_world : world := World more_fs [].

(** A directory that holds files whose names start with a dot. *)
Definition hidden_world : world :=
  World [ (".mat", MatV5 [("X", vec3)]);
          ("data/.h5", HDF5 [("a", Dataset vec3)]) ] [].

(* ================================================================== *)
(** ** Two runs of a reader *)
(* ================================================================== *)

(** The handles a reader gets from h5py depend on how many objects the
    process already holds.  [rebase n] turns what a run that starts from
    the empty table makes into what the same run makes when it starts
    from a table of [n] objects. *)
Definition rebase (n : nat) (e : h5entry) : h5entry :=
  H5Entry (n + h_file e)%nat (h_is_file e) (h_node e) (h_valid e).

Definition rebase_value (n : nat) (v : pyvalue) : pyvalue :=
  match v with
  | VArray a => VArray a
  | VH5 o => VH5 (n + o)%nat
  end.

Definition rebase_dict (n : nat) (d : list (string * pyvalue))
  : list (string * pyvalue) :=
  map (fun kv => (fst kv, rebase_value n (snd kv))) d.

Definition rebase_container (n : nat) (c : container) : container :=
  match c with
  | MFile f => MFile (n + f)%nat
  | MDict d => MDict (rebase_dict n d)
  end.

Definition rebase_env (n : nat) (env : container * option ndarray)
  : container * option ndarray :=
  (rebase_container n (fst env), snd env).

Definition map_result {A B} (f : A -> B) (r : result A) : result B :=
  match r with
  | Ok a => Ok (f a)
  | Raise e => Raise e
  end.

(** [same_run n w w0]: the same files, and the table of [w] is [n] older
    objects followed by the objects of [w0], rebased. *)
Definition same_run (n : nat) (w w0 : world) : Prop :=
  fs w = fs w0
  /\ exists pre, List.length pre = n
               /\ objs w = (pre ++ map (rebase n) (objs w0))%list.

(** [m], run after [n] older objects, does what [m0] does without them,
    up to [f] on the result. *)
Definition simulates {A} (f : A -> A) (n : nat) (m m0 : M A) : Prop :=
  forall w w0, same_run n w w0 ->
    fst (m w) = map_result f (fst (m0 w0))
    /\ same_run n (snd (m w)) (snd (m0 w0)).

(** A second call, made in the world the first call left, gives what the
    first gave. *)
Definition repeatable {A} (m : M A) : Prop :=
  forall w, fst (m (snd (m w))) = fst (m w).

(** A process that already holds h5py objects, one of them closed. *)
Definition busy_world : world :=
  World more_fs
    [ H5Entry 0 true (Group [("a", Dataset vec3)]) false;
      H5Entry 0 false (Dataset vec3) false;
      H5Entry 2 true (Group []) true ].

(* ================================================================== *)
(** ** Properties *)
(* ================================================================== *)

(** *** numpy: two runs *)

Example transpose_3x4 :
  transpose (NdArray [3%nat; 4%nat] [0;1;2;3; 4;5;6;7; 8;9;10;11])
  = NdArray [4%nat; 3%nat] [0;4;8; 1;5;9; 2;6;10; 3;7;11].
Proof. reflexivity. Qed.

Example column_stack_3 :
  column_stack [NdArray [2%nat] [1;2]; NdArray [2%nat] [3;4]; NdArray [2%nat] [5;6]]
  = Ok (NdArray [2%nat; 3%nat] [1;3;5; 2;4;6]).
Proof. reflexivity. Qed.

(** *** The codec round-trips *)

Lemma minipickle_loads_dumps (o : MiniPickle.pyobj) (bs : list Byte.byte) :
  MiniPickle.dumps o = Some bs -> MiniPickle.loads bs = Ok o.
Proof.
  unfold MiniPickle.dumps; intros H; injection H as <-.
  destruct o as [ | [ | ] | n ]; reflexivity.
Qed.

(* ------------------------------------------------------------------ *)
(** *** Dictionaries and the file system *)

Lemma dict_get_set_same {V} (d : list (string * V)) (k : string) (v : V) :
  dict_get (dict_set d k v) k = Some v.
Proof.
  induction d as [ | [k' v'] d IH]; simpl.
  - now rewrite String.eqb_refl.
  - destruct (String.eqb k' k) eqn:E; simpl; rewrite E; auto.
Qed.

Lemma dict_get_absent {V} (d : list (string * V)) (k : string) :
  ~ In k (dict_keys d) -> dict_get d k = None.
Proof.
  induction d as [ | [k' v'] d IH]; simpl; intros H; auto.
  destruct (String.eqb k' k) eqn:E.
  - apply String.eqb_eq in E. tauto.
  - apply IH. tauto.
Qed.

(** A non-negative index in range selects the element at that position. *)
Lemma list_getitem_nth {A} (l : list A) (n : nat) (a : A) :
  nth_error l n = Some a -> list_getitem l (Z.of_nat n) = Ok a.
Proof.
  intros H. unfold list_getitem.
  assert (Hlt : (n < List.length l)%nat)
    by (apply nth_error_Some; congruence).
  destruct (Z.of_nat n <? 0) eqn:E0; [apply Z.ltb_lt in E0; lia | ].
  destruct (0 <=? Z.of_nat n) eqn:E1; [ | apply Z.leb_gt in E1; lia].
  destruct (Z.of_nat n <? Z.of_nat (List.length l)) eqn:E2;
    [ | apply Z.ltb_ge in E2; lia].
  cbn [andb]. rewrite Nat2Z.id, H. reflexivity.
Qed.

(* ------------------------------------------------------------------ *)
(** *** load: the dispatcher *)

Section LoadFacts.

Variables K R : Type.
Variable readers : reader_table K R.

Lemma function_map_keys :
  dict_keys (function_map readers) = supported_extensions.
Proof. reflexivity. Qed.

Lemma load_missing_file (datafile : string) (kwargs : K) (w : world) :
  dict_get (fs w) datafile = None ->
  load readers datafile kwargs w = (Raise (Exn AssertionError ""), w).
Proof.
  intros H. unfold load, bind, os_path_exists, assert_. now rewrite H.
Qed.

Lemma load_existing (datafile : string) (kwargs : K) (w : world) :
  dict_get (fs w) datafile <> None ->
  load readers datafile kwargs w =
  match dict_get (function_map readers) (snd (OsPath.splitext datafile)) with
  | Some reader => reader datafile kwargs w
  | None => (Raise (Exn KeyError (snd (OsPath.splitext datafile))), w)
  end.
Proof.
  intros H. unfold load, bind, os_path_exists, assert_.
  destruct (dict_get (fs w) datafile); [ | congruence].
  unfold ret. cbv beta iota.
  destruct (OsPath.splitext datafile) as [filename file_extension].
  cbv beta iota delta [snd].
  destruct (dict_get (function_map readers) file_extension); reflexivity.
Qed.

Lemma load_unsupported (datafile : string) (kwargs : K) (w : world) :
  dict_get (fs w) datafile <> None ->
  ~ In (snd (OsPath.splitext datafile)) supported_extensions ->
  load readers datafile kwargs w =
  (Raise (Exn KeyError (snd (OsPath.splitext datafile))), w).
Proof.
  intros Hex Hext. rewrite load_existing by assumption.
  rewrite dict_get_absent; [reflexivity | ].
  now rewrite function_map_keys.
Qed.

End LoadFacts.

(** C4.  A path that does not exist makes [load] fail at its assertion;
    for a path that exists, [load] is the reader registered for the
    extension [os.path.splitext] gives, applied to the same path and the
    same keyword options in the same world; an extension that is not
    registered is a [KeyError]. *)
Theorem load_dispatch (K R : Type) (readers : reader_table K R)
  (datafile : string) (kwargs : K) (w : world) :
  (dict_get (fs w) datafile = None ->
   load readers datafile kwargs w = (Raise (Exn AssertionError ""), w)) /\
  (dict_get (fs w) datafile <> None ->
   let file_extension := snd (OsPath.splitext datafile) in
   (file_extension = ".mat" ->
    load readers datafile kwargs w = loadMat_entry readers datafile kwargs w) /\
   (file_extension = ".gii" ->
    load readers datafile kwargs w = loadGii_entry readers datafile kwargs w) /\
   (file_extension = ".h5" ->
    load readers datafile kwargs w = loadH5_entry readers datafile kwargs w) /\
   (file_extension = ".p" ->
    load readers datafile kwargs w = loadPick_entry readers datafile kwargs w) /\
   (~ In file_extension supported_extensions ->
    load readers datafile kwargs w = (Raise (Exn KeyError file_extension), w))).
Proof.
  split; [apply load_missing_file | ].
  intros Hex file_extension.
  repeat split; intros Hext;
    try (rewrite load_existing by assumption; fold file_extension;
         rewrite Hext; reflexivity).
  now apply load_unsupported.
Qed.

Lemma load_dispatch_witness :
  load readers_no_options "obj.p" tt sample_world
  = (Ok (PObject (MiniPickle.PyInt Byte.x2a)), sample_world)
  /\ load readers_no_options "notes" tt sample_world
     = (Raise (Exn KeyError ""), sample_world)
  /\ load readers_no_options "absent.mat" tt sample_world
     = (Raise (Exn AssertionError ""), sample_world).
Proof.
  pose proof (load_dispatch readers_no_options "obj.p" tt sample_world) as [_ Hp].
  pose proof (load_dispatch readers_no_options "notes" tt sample_world) as [_ Hn].
  pose proof (load_dispatch readers_no_options "absent.mat" tt sample_world) as [Ha _].
  split; [ | split].
  - destruct Hp as (_ & _ & _ & Hp & _); [discriminate | ].
    rewrite Hp; reflexivity.
  - destruct Hn as (_ & _ & _ & _ & Hn); [discriminate | ].
    apply Hn. cbn. intuition discriminate.
  - apply Ha. reflexivity.
Defined.

(* ------------------------------------------------------------------ *)
(** *** load: suffixes that differ in case, paths without a suffix *)

Lemma supported_lower (e : string) :
  In e supported_extensions -> lower e = e.
Proof.
  cbn. intros [<- | [<- | [<- | [<- | []]]]]; reflexivity.
Qed.

Lemma rfind_from_absent (c : ascii) (p : string) (i last : Z) :
  ~ In c (list_ascii_of_string p) -> OsPath.rfind_from c p i last = last.
Proof.
  revert i last. induction p as [ | c' p IH]; cbn; intros i last H; auto.
  destruct (Ascii.eqb c' c) eqn:E.
  - apply Ascii.eqb_eq in E. tauto.
  - apply IH. tauto.
Qed.

Lemma rfind_from_lower_bound (c : ascii) (p : string) (i last : Z) :
  -1 <= last -> -1 <= i -> -1 <= OsPath.rfind_from c p i last.
Proof.
  revert i last. induction p as [ | c' p IH]; cbn; intros i last Hl Hi; auto.
  apply IH; [destruct (Ascii.eqb c' c) | ]; lia.
Qed.

(** A path without any dot has the empty extension. *)
Lemma splitext_no_dot (p : string) :
  ~ In "."%char (list_ascii_of_string p) -> OsPath.splitext p = (p, "").
Proof.
  intros H. unfold OsPath.splitext, OsPath._splitext, OsPath.rfind.
  rewrite (@rfind_from_absent _ _ 0 (-1) H).
  pose proof (@rfind_from_lower_bound "/"%char p 0 (-1)) as Hb.
  destruct (-1 >? OsPath.rfind_from "/" p 0 (-1)) eqn:E; [ | reflexivity].
  apply Z.gtb_lt in E. lia.
Qed.

Lemma prefix_suffix (n : nat) (p : string) :
  (OsPath.prefix_to n p ++ OsPath.suffix_from n p)%string = p.
Proof.
  unfold OsPath.prefix_to, OsPath.suffix_from. revert n.
  induction p as [ | c p IH]; intros [ | n]; cbn; try reflexivity.
  - f_equal. specialize (IH 0%nat). cbn in IH. rewrite Nat.sub_0_r in IH.
    destruct p; [reflexivity | ]. cbn in *. exact IH.
  - f_equal. apply IH.
Qed.

Lemma skip_leading_dots_join (p : string) (extsep : ascii)
  (filenameIndex steps dotIndex : nat) :
  let parts := OsPath.skip_leading_dots p extsep filenameIndex steps dotIndex in
  (fst parts ++ snd parts)%string = p.
Proof.
  revert filenameIndex. induction steps as [ | steps IH]; intros filenameIndex; cbn.
  - clear. induction p as [ | c p IH]; cbn; [reflexivity | now f_equal].
  - destruct (String.get filenameIndex p) as [c | ]; cbn;
      [destruct (Ascii.eqb c extsep); [apply IH | ] | ]; apply prefix_suffix.
Qed.

(** As the Python documentation has it: [root + ext == path]. *)
Lemma splitext_join (p : string) :
  (fst (OsPath.splitext p) ++ snd (OsPath.splitext p))%string = p.
Proof.
  unfold OsPath.splitext, OsPath._splitext.
  destruct (OsPath.rfind p "." >? OsPath.rfind p "/").
  - apply skip_leading_dots_join.
  - cbn. clear. induction p as [ | c p IH]; cbn; [reflexivity | now f_equal].
Qed.

(** C10.  The extension is the suffix [os.path.splitext] cuts off, compared
    as it is: when it is empty (in particular for a path without a dot), or
    differs from a registered extension only in case, [load] on an existing
    path raises the [KeyError] of an unregistered extension, whatever the
    file holds. *)
Theorem load_extension_case_sensitive (K R : Type) (readers : reader_table K R)
  (datafile : string) (kwargs : K) (w : world) :
  dict_get (fs w) datafile <> None ->
  let file_extension := snd (OsPath.splitext datafile) in
  (file_extension = ""
   \/ (In (lower file_extension) supported_extensions
       /\ file_extension <> lower file_extension)) ->
  load readers datafile kwargs w = (Raise (Exn KeyError file_extension), w)
  /\ (~ In "."%char (list_ascii_of_string datafile) -> file_extension = "").
Proof.
  intros Hex file_extension Hcase. split.
  - apply load_unsupported; [assumption | ]. fold file_extension.
    destruct Hcase as [-> | [Hin Hne]].
    + cbn. intuition discriminate.
    + intros Hsup. apply Hne. symmetry. now apply supported_lower.
  - intros Hdot. unfold file_extension. now rewrite splitext_no_dot.
Qed.

Lemma load_extension_case_sensitive_witness :
  load readers_no_options "scan.MAT" tt sample_world
  = (Raise (Exn KeyError ".MAT"), sample_world)
  /\ load readers_no_options "notes" tt sample_world
     = (Raise (Exn KeyError ""), sample_world).
Proof.
  split.
  - apply (load_extension_case_sensitive readers_no_options "scan.MAT" tt
             sample_world).
    + discriminate.
    + right. split; [cbn; tauto | discriminate].
  - apply (load_extension_case_sensitive readers_no_options "notes" tt
             sample_world).
    + discriminate.
    + left. reflexivity.
Defined.

(* ------------------------------------------------------------------ *)
(** *** loadPick: the round trip *)

Section PickleRoundTrip.

Variable pyobj : Type.
Variable pickle_loads : list Byte.byte -> result pyobj.
Variable pickle_dumps : pyobj -> option (list Byte.byte).

(** What the pickle library promises: decoding an encoding gives the
    object back. *)
Hypothesis pickle_loads_dumps :
  forall o bs, pickle_dumps o = Some bs -> pickle_loads bs = Ok o.

Lemma loadPick_reads_bytes (D G : Type) (infile : string) (datasets : D)
  (group : G) (w : world) (bs : list Byte.byte) (obj : pyobj) :
  dict_get (fs w) infile = Some (Bytes bs) ->
  pickle_loads bs = Ok obj ->
  loadPick pickle_loads infile datasets group w = (Ok obj, w).
Proof.
  intros Hfs Hl.
  unfold loadPick, bind, os_path_exists, assert_, try_except, open_rb,
    pickle_load, lift.
  rewrite Hfs. cbn. rewrite Hfs. cbn. rewrite Hl. reflexivity.
Qed.


End PickleRoundTrip.


(* ------------------------------------------------------------------ *)
(** *** loadSurf *)

(** C9.  In gifti mode, on a GIFTI file whose data arrays start with
    [vertices] and [faces], [loadSurf] returns the list of exactly these
    two, in this order; the arrays are arbitrary, nothing relates the
    entries of [faces] to the number of vertices. *)
Theorem loadSurf_gifti (inFile : string) (vertices faces : ndarray)
  (others : list ndarray) (w : world) :
  dict_get (fs w) inFile
  = Some (NbImage (GiftiImage (vertices :: faces :: others))) ->
  loadSurf inFile true w = (Ok [vertices; faces], w).
Proof.
  intros H. unfold loadSurf, bind, nb_load, darrays_of, lift, ret. rewrite H.
  change 0 with (Z.of_nat 0). change 1 with (Z.of_nat 1).
  rewrite (@list_getitem_nth _ (vertices :: faces :: others) 0%nat vertices eq_refl).
  rewrite (@list_getitem_nth _ (vertices :: faces :: others) 1%nat faces eq_refl).
  reflexivity.
Qed.

Lemma loadSurf_gifti_witness :
  loadSurf "mesh.surf.gii" true sample_world
  = (Ok [NdArray [3%nat; 3%nat] [0;0;0; 1;0;0; 0;1;0];
         NdArray [1%nat; 3%nat] [0; 1; 7]], sample_world).
Proof.
  apply (@loadSurf_gifti "mesh.surf.gii" _ _ [] sample_world). reflexivity.
Defined.

(* ------------------------------------------------------------------ *)
(** *** numpy: squeezing and stacking *)

(** The transpose has the axes of the array in reverse order. *)
Lemma shape_transpose (a : ndarray) : shape (transpose a) = rev (shape a).
Proof. reflexivity. Qed.

Lemma prod_filter_not_one (sh : list nat) :
  prod (filter not_one sh) = prod sh.
Proof.
  unfold prod. induction sh as [ | d sh IH]; cbn; auto.
  unfold not_one at 1. destruct (Nat.eqb_spec d 1) as [-> | Hd]; cbn.
  - rewrite IH. lia.
  - now rewrite IH.
Qed.

Lemma squeeze_wf (a : ndarray) : wf a -> wf (squeeze a).
Proof.
  unfold wf, squeeze. cbn. now rewrite prod_filter_not_one.
Qed.

Lemma squeeze_squeezed (a : ndarray) : squeezed (squeeze a).
Proof.
  unfold squeezed, squeeze. cbn. apply Forall_forall.
  intros d Hd. now apply filter_In in Hd.
Qed.

Lemma filter_all_true {A} (f : A -> bool) (l : list A) :
  Forall (fun x => f x = true) l -> filter f l = l.
Proof.
  induction 1 as [ | x l Hx _ IH]; cbn; auto. now rewrite Hx, IH.
Qed.

Lemma squeeze_of_squeezed (a : ndarray) : squeezed a -> squeeze a = a.
Proof.
  destruct a as [sh d]. unfold squeezed, squeeze. cbn [shape data].
  intros H. now rewrite (filter_all_true _ H).
Qed.

(** Cutting a list into [n] chunks of [sz] elements and joining the chunks
    in order gives the list back. *)
Lemma chunks_all (sz n : nat) (l : list Z) :
  List.length l = (n * sz)%nat ->
  flat_map (fun i => chunk sz i l) (seq 0 n) = l.
Proof.
  revert l. induction n as [ | n IH]; intros l Hl.
  - destruct l; [reflexivity | discriminate].
  - transitivity (firstn sz l ++ skipn sz l)%list; [ | apply firstn_skipn].
    cbn [seq flat_map]. f_equal.
    rewrite <- (IH (skipn sz l)) by (rewrite length_skipn; lia).
    rewrite <- seq_shift, !flat_map_concat_map, map_map.
    f_equal. apply map_ext. intros i. unfold chunk.
    rewrite skipn_skipn. f_equal. f_equal. lia.
Qed.

Lemma chunk_one (i : nat) (l : list Z) :
  (i < List.length l)%nat -> chunk 1 i l = [nth i l 0].
Proof.
  unfold chunk. rewrite Nat.mul_1_r. revert l.
  induction i as [ | i IH]; intros [ | x l] H; cbn in *; try lia.
  - destruct l; reflexivity.
  - apply IH. lia.
Qed.

Lemma flat_map_ext_seq {B} (f g : nat -> list B) (n : nat) :
  (forall i, (i < n)%nat -> f i = g i) ->
  flat_map f (seq 0 n) = flat_map g (seq 0 n).
Proof.
  intros H. rewrite !flat_map_concat_map. f_equal.
  apply map_ext_in. intros i Hi. apply in_seq in Hi. apply H. lia.
Qed.

(** Stacking a single squeezed array and squeezing the stack gives the
    array back: the column that [column_stack] makes of a vector is
    squeezed away again. *)
Lemma column_stack_single (b : ndarray) :
  wf b -> squeezed b ->
  exists stacked, column_stack [b] = Ok stacked /\ squeeze stacked = b.
Proof.
  destruct b as [sh d]. unfold wf, squeezed, column_stack, as_column.
  cbn [shape data map]. intros Hwf Hsq.
  destruct sh as [ | d0 [ | d1 tl]].
  - (* a scalar *)
    eexists. split; [reflexivity | ]. cbn in *.
    destruct d as [ | x [ | y d]]; cbn in *; try discriminate. reflexivity.
  - (* a vector *)
    eexists. split; [reflexivity | ].
    unfold squeeze, axis1. cbn [shape data nth prod fold_right map Nat.add].
    inversion Hsq as [ | ? ? Hd0 _]; subst.
    cbn [filter]. rewrite Hd0. cbn. f_equal.
    rewrite (flat_map_ext_seq _ (fun i => chunk 1 i d)).
    + apply chunks_all. exact Hwf.
    + intros i _. cbn [flat_map]. rewrite app_nil_r. reflexivity.
  - (* two dimensions or more *)
    eexists. split; [reflexivity | ].
    unfold squeeze, axis1. cbn [shape data nth fold_right map Nat.add].
    rewrite Nat.add_0_r, (filter_all_true _ Hsq). f_equal.
    rewrite (flat_map_ext_seq _ (fun i => chunk (d1 * prod tl) i d)).
    + apply chunks_all. exact Hwf.
    + intros i _. cbn [flat_map]. rewrite app_nil_r. reflexivity.
Qed.

(** Three vectors of the same length stack into the matrix whose columns
    they are. *)
Lemma column_stack_vectors3 (b0 b1 b2 : ndarray) (n : nat) :
  shape b0 = [n] -> shape b1 = [n] -> shape b2 = [n] ->
  wf b0 -> wf b1 -> wf b2 ->
  column_stack [b0; b1; b2]
  = Ok (NdArray [n; 3%nat]
          (flat_map (fun i => [nth i (data b0) 0; nth i (data b1) 0;
                               nth i (data b2) 0])
                    (seq 0 n))).
Proof.
  destruct b0 as [s0 d0], b1 as [s1 d1], b2 as [s2 d2]. unfold wf.
  cbn [shape data]. intros -> -> -> H0 H1 H2. cbn in H0, H1, H2.
  unfold column_stack, as_column. cbn [map shape data].
  unfold concatenate1. cbn [shape forallb]. unfold stackable. cbn [shape].
  rewrite Nat.eqb_refl. cbn [andb shape_eqb]. 
  change (shape_eqb [] []) with true. cbn [andb].
  unfold axis1. cbn [shape data nth prod fold_right map Nat.add Nat.mul].
  f_equal. f_equal. apply flat_map_ext_seq. intros i Hi.
  cbn [flat_map shape data nth Nat.mul Nat.add].
  rewrite !chunk_one by lia. reflexivity.
Qed.

(* ------------------------------------------------------------------ *)
(** *** loadGii *)

Lemma normalize_selector_gifti (darrays : list ndarray) (datasets : selector)
  (w : world) :
  normalize_selector (GiftiImage darrays) datasets w
  = (Ok (selector_indices (List.length darrays) datasets), w).
Proof.
  destruct datasets as [j | a | [ | j l]]; reflexivity.
Qed.

(** The loop of lines 112-113 appends the squeezed arrays in the order of
    the indices. *)
Lemma gather_darrays (darrays : list ndarray) (idxs : list Z)
  (arrs : list ndarray) :
  Forall2 (fun j a => list_getitem darrays j = Ok a) idxs arrs ->
  forall (acc : list ndarray) (w : world),
    for_ idxs
      (fun darray j =>
         a <- lift (list_getitem darrays j) ;;
         ret (darray ++ [squeeze a])%list)
      acc w
    = (Ok (acc ++ map squeeze arrs)%list, w).
Proof.
  induction 1 as [ | j a idxs arrs Hj _ IH]; intros acc w; cbn [for_ map].
  - unfold ret. now rewrite app_nil_r.
  - unfold bind at 1. unfold bind at 1. unfold lift at 1. rewrite Hj.
    unfold ret at 1. rewrite IH, <- app_assoc. reflexivity.
Qed.

Lemma loadGii_gifti (infile : string) (datasets : selector)
  (group : option string) (w : world) (darrays arrs : list ndarray)
  (stacked : ndarray) :
  dict_get (fs w) infile = Some (NbImage (GiftiImage darrays)) ->
  Forall2 (fun j a => list_getitem darrays j = Ok a)
          (selector_indices (List.length darrays) datasets) arrs ->
  column_stack (map squeeze arrs) = Ok stacked ->
  loadGii infile datasets group w = (Ok (squeeze stacked), w).
Proof.
  intros Hfs Hsel Hst. unfold loadGii.
  unfold bind at 1. unfold try_except, nb_load. rewrite Hfs.
  unfold bind at 1. rewrite normalize_selector_gifti.
  unfold bind at 1. rewrite (@gather_darrays _ _ _ Hsel). cbn [app].
  unfold bind, lift. rewrite Hst. reflexivity.
Qed.




(* ------------------------------------------------------------------ *)
(** *** The monad and the h5py object table *)

Lemma bind_ok {A B} {m : M A} (f : A -> M B) {w w' : world} {a : A} :
  m w = (Ok a, w') -> bind m f w = f a w'.
Proof. intros H. unfold bind. now rewrite H. Qed.

Lemma bind_raise {A B} {m : M A} (f : A -> M B) {w w' : world} {e : exn} :
  m w = (Raise e, w') -> bind m f w = (Raise e, w').
Proof. intros H. unfold bind. now rewrite H. Qed.

Lemma entry_new (fs' : list (string * content)) (l : list h5entry) (e : h5entry) :
  H5py.entry (List.length l) (World fs' (l ++ [e])) = Some e.
Proof.
  unfold H5py.entry. cbn [objs].
  rewrite nth_error_app2 by lia. now rewrite Nat.sub_diag.
Qed.

Lemma entry_old (w : world) (fs' : list (string * content)) (l : list h5entry)
  (o : h5obj) (e : h5entry) :
  H5py.entry o w = Some e ->
  H5py.entry o (World fs' (objs w ++ l)) = Some e.
Proof.
  unfold H5py.entry. cbn [objs]. intros H.
  rewrite nth_error_app1; [assumption | ].
  apply nth_error_Some. congruence.
Qed.

Lemma entry_invalidated (w : world) (fs' : list (string * content)) (f : nat)
  (o : h5obj) (e : h5entry) :
  H5py.entry o w = Some e ->
  H5py.entry o (World fs' (map (H5py.invalidate f) (objs w)))
  = Some (H5py.invalidate f e).
Proof.
  unfold H5py.entry. cbn [objs]. intros H.
  now rewrite nth_error_map, H.
Qed.

Lemma File_hdf5 (path : string) (root : list (string * h5node)) (w : world) :
  dict_get (fs w) path = Some (HDF5 root) ->
  H5py.File path w
  = (Ok (List.length (objs w)),
     World (fs w)
       (objs w ++ [H5Entry (List.length (objs w)) true (Group root) true])).
Proof. intros H. unfold H5py.File, H5py.alloc. now rewrite H. Qed.

Lemma getitem_member (o : h5obj) (name : string) (w : world) (e : h5entry)
  (members : list (string * h5node)) (n : h5node) :
  H5py.entry o w = Some e -> h_valid e = true -> h_node e = Group members ->
  dict_get members name = Some n ->
  H5py.getitem o name w
  = (Ok (List.length (objs w)),
     World (fs w) (objs w ++ [H5Entry (h_file e) false n true])).
Proof.
  intros He Hv Hn Hm. unfold H5py.getitem, H5py.alloc.
  now rewrite He, Hv, Hn, Hm.
Qed.

Lemma getitem_absent (o : h5obj) (name : string) (w : world) (e : h5entry)
  (members : list (string * h5node)) :
  H5py.entry o w = Some e -> h_valid e = true -> h_node e = Group members ->
  dict_get members name = None ->
  H5py.getitem o name w = (Raise (Exn KeyError name), w).
Proof.
  intros He Hv Hn Hm. unfold H5py.getitem. now rewrite He, Hv, Hn, Hm.
Qed.

Lemma getitem_invalid (o : h5obj) (name : string) (w : world) (e : h5entry) :
  H5py.entry o w = Some e -> h_valid e = false ->
  H5py.getitem o name w
  = (Raise (Exn ValueError "Invalid location identifier"), w).
Proof.
  intros He Hv. unfold H5py.getitem. now rewrite He, Hv.
Qed.

Lemma asarray_dataset (o : h5obj) (w : world) (e : h5entry) (a : ndarray) :
  H5py.entry o w = Some e -> h_valid e = true -> h_node e = Dataset a ->
  H5py.asarray o w = (Ok a, w).
Proof.
  intros He Hv Hn. unfold H5py.asarray. now rewrite He, Hv, Hn.
Qed.

Lemma close_file (o : h5obj) (w : world) (e : h5entry) :
  H5py.entry o w = Some e -> h_is_file e = true ->
  H5py.close o w
  = (Ok tt, World (fs w) (map (H5py.invalidate (h_file e)) (objs w))).
Proof.
  intros He Hf. unfold H5py.close. now rewrite He, Hf.
Qed.

(** A group or a dataset cannot be closed: line 164 can only succeed on a
    [File]. *)
Lemma close_not_a_file (o : h5obj) (w : world) (e : h5entry) :
  H5py.entry o w = Some e -> h_is_file e = false ->
  H5py.close o w
  = (Raise (Exn AttributeError "object has no attribute 'close'"), w).
Proof.
  intros He Hf. unfold H5py.close. now rewrite He, Hf.
Qed.

Lemma dict_get_map_values {V W} (f : V -> W) (d : list (string * V)) (k : string) :
  dict_get (map (fun kv => (fst kv, f (snd kv))) d) k
  = option_map f (dict_get d k).
Proof.
  induction d as [ | [k' v] d IH]; cbn; auto.
  destruct (String.eqb k' k); auto.
Qed.

(* ------------------------------------------------------------------ *)
(** *** loadMat: the named branch *)

(** With a name that the HDF5-backed file holds as a dataset, [loadMat]
    returns the squeezed array transposed. *)
Lemma loadMat_named_hdf5 (infile name : string) (root : list (string * h5node))
  (a : ndarray) (w : world) :
  dict_get (fs w) infile = Some (HDF5 root) ->
  name <> "" ->
  dict_get root name = Some (Dataset a) ->
  fst (loadMat infile (Some name) w) = Ok (transpose (squeeze a))
  /\ H5py.is_open (List.length (objs w)) (snd (loadMat infile (Some name) w))
     = false.
Proof.
  intros Hfs Hname Hroot.
  assert (Htruthy : truthy_str (Some name) = true).
  { cbn. destruct (String.eqb_spec name ""); [contradiction | reflexivity]. }
  unfold loadMat. rewrite Htruthy.
  set (n := List.length (objs w)).
  set (e0 := H5Entry n true (Group root) true).
  set (e1 := H5Entry n false (Dataset a) true).
  set (w1 := World (fs w) (objs w ++ [e0])).
  set (w2 := World (fs w) ((objs w ++ [e0]) ++ [e1])).
  assert (Hopen : loadMat_open infile w = (Ok (MFile n), w1)).
  { unfold loadMat_open, try_except.
    rewrite (bind_ok _ (File_hdf5 _ _ Hfs)). reflexivity. }
  rewrite (bind_ok _ Hopen).
  assert (He0 : H5py.entry n w2 = Some e0).
  { unfold w2. apply (@entry_old w1 (fs w) [e1] n e0). apply entry_new. }
  assert (Hget : H5py.getitem n name w1 = (Ok (S n), w2)).
  { rewrite (@getitem_member n name w1 e0 root (Dataset a));
      try reflexivity; try assumption.
    - unfold w1, w2. cbn [objs fs]. rewrite length_app. cbn [List.length].
      fold n. now rewrite Nat.add_1_r.
    - apply entry_new. }
  assert (Harr : H5py.asarray (S n) w2 = (Ok a, w2)).
  { apply asarray_dataset with e1; try reflexivity.
    unfold w2. replace (S n) with (List.length (objs w ++ [e0])).
    - apply entry_new.
    - rewrite length_app. cbn [List.length]. fold n. lia. }
  assert (Hnamed : loadMat_named (MFile n) name w1
                   = (Ok (MFile n, Some (transpose (squeeze a))), w2)).
  { unfold loadMat_named, try_except_else, container_getitem.
    rewrite (bind_ok _ (bind_ok _ Hget)). unfold ret at 2.
    cbn [np_asarray]. rewrite (bind_ok _ Harr). reflexivity. }
  rewrite (bind_ok _ Hnamed). cbn [fst snd].
  rewrite (bind_ok _ (@close_file n w2 e0 He0 eq_refl)).
  cbn [return_local ret fst snd]. split; [reflexivity | ].
  unfold H5py.is_open.
  rewrite (@entry_invalidated w2 (fs w2) (h_file e0) n e0 He0).
  unfold H5py.invalidate. cbn [h_file e0]. now rewrite Nat.eqb_refl.
Qed.


(* ------------------------------------------------------------------ *)
(** *** Computations that only add objects to the table *)

Lemma extends_refl (w : world) : extends w w.
Proof. split; [reflexivity | exists []; now rewrite app_nil_r]. Qed.

Lemma extends_trans (w1 w2 w3 : world) :
  extends w1 w2 -> extends w2 w3 -> extends w1 w3.
Proof.
  intros [F1 [l1 O1]] [F2 [l2 O2]]. split; [congruence | ].
  exists (l1 ++ l2)%list. now rewrite O2, O1, app_assoc.
Qed.

Lemma extends_entry (w w' : world) (o : h5obj) (e : h5entry) :
  extends w w' -> H5py.entry o w = Some e -> H5py.entry o w' = Some e.
Proof.
  intros [_ [l Hl]] He. unfold H5py.entry in *. rewrite Hl.
  rewrite nth_error_app1; [assumption | ].
  apply nth_error_Some. congruence.
Qed.

Lemma monotone_ret {A} (a : A) : monotone (ret a).
Proof. intros w. apply extends_refl. Qed.

Lemma monotone_raise {A} (c : exn_class) (arg : string) :
  monotone (@raise A c arg).
Proof. intros w. apply extends_refl. Qed.

Lemma monotone_lift {A} (r : result A) : monotone (lift r).
Proof. intros w. apply extends_refl. Qed.

Lemma monotone_bind {A B} (m : M A) (f : A -> M B) :
  monotone m -> (forall a, monotone (f a)) -> monotone (bind m f).
Proof.
  intros Hm Hf w. unfold bind. specialize (Hm w).
  destruct (m w) as [[a | e] w1]; cbn [snd] in *; [ | assumption].
  eapply extends_trans; [eassumption | apply Hf].
Qed.

Lemma monotone_try_except {A} (body : M A) (c : exn_class)
  (handler : exn -> M A) :
  monotone body -> (forall e, monotone (handler e)) ->
  monotone (try_except body c handler).
Proof.
  intros Hb Hh w. unfold try_except. specialize (Hb w).
  destruct (body w) as [[a | e] w1]; cbn [snd] in *; [assumption | ].
  destruct (isinstance e c); [ | assumption].
  eapply extends_trans; [eassumption | apply Hh].
Qed.

Lemma monotone_for {A S} (xs : list A) (body : S -> A -> M S) :
  (forall acc x, monotone (body acc x)) ->
  forall acc, monotone (for_ xs body acc).
Proof.
  intros Hb. induction xs as [ | x xs IH]; intros acc; cbn [for_].
  - apply monotone_ret.
  - apply monotone_bind; [apply Hb | apply IH].
Qed.

Lemma monotone_alloc (e : h5entry) : monotone (H5py.alloc e).
Proof. intros w. split; [reflexivity | now exists [e]]. Qed.

Lemma monotone_getitem (o : h5obj) (name : string) :
  monotone (H5py.getitem o name).
Proof.
  intros w. unfold H5py.getitem, H5py.invalid, raise.
  destruct (H5py.entry o w) as [e | ]; [ | apply extends_refl].
  destruct (h_valid e); [ | apply extends_refl].
  destruct (h_node e) as [a | members]; [apply extends_refl | ].
  destruct (dict_get members name); [apply monotone_alloc | apply extends_refl].
Qed.

Lemma monotone_keys (o : h5obj) : monotone (H5py.keys o).
Proof.
  intros w. unfold H5py.keys, H5py.invalid, raise.
  destruct (H5py.entry o w) as [e | ]; [ | apply extends_refl].
  destruct (h_node e); [ | destruct (h_valid e)]; apply extends_refl.
Qed.

Lemma monotone_asarray (o : h5obj) : monotone (H5py.asarray o).
Proof.
  intros w. unfold H5py.asarray, H5py.invalid, raise.
  destruct (H5py.entry o w) as [e | ]; [ | apply extends_refl].
  destruct (h_valid e); [ | apply extends_refl].
  destruct (h_node e); apply extends_refl.
Qed.

Lemma monotone_container_getitem (matData : container) (k : string) :
  monotone (container_getitem matData k).
Proof.
  destruct matData as [f | d]; cbn [container_getitem].
  - apply monotone_bind; [apply monotone_getitem | intros; apply monotone_ret].
  - destruct (dict_get d k); [apply monotone_ret | apply monotone_raise].
Qed.

Lemma monotone_container_keys (matData : container) :
  monotone (container_keys matData).
Proof.
  destruct matData; [apply monotone_keys | apply monotone_ret].
Qed.

Lemma monotone_np_asarray (v : pyvalue) : monotone (np_asarray v).
Proof.
  destruct v; [apply monotone_ret | apply monotone_asarray].
Qed.

Create HintDb monotone.
#[local] Hint Resolve monotone_ret monotone_raise monotone_lift monotone_bind
  monotone_try_except monotone_for monotone_getitem monotone_keys
  monotone_asarray monotone_container_getitem monotone_container_keys
  monotone_np_asarray : monotone.

(** The default branch of [loadMat] closes nothing. *)
Lemma monotone_loadMat_default (matData : container) :
  monotone (loadMat_default matData).
Proof. unfold loadMat_default. auto 12 with monotone. Qed.

(** Whatever the default branch returns, the [matData] it leaves is the
    dictionary it built. *)
Lemma loadMat_default_rebinds (matData : container) (w w' : world)
  (env : container * option ndarray) :
  loadMat_default matData w = (Ok env, w') ->
  is_h5py_File (fst env) = false.
Proof.
  unfold loadMat_default. unfold bind.
  repeat match goal with
         | |- context [match ?m ?x with (_, _) => _ end] =>
             destruct (m x) as [[? | ?] ?]
         end;
  intros H; try discriminate.
  unfold ret in H. injection H as <- _. reflexivity.
Qed.

(** Without a (non-empty) name, an HDF5-backed file is still open when
    [loadMat] is left, by [return] or by an exception: after the rebinding
    of [matData] the test of line 81 sees a dictionary. *)
Lemma loadMat_default_leaves_open (infile : string) (datasets : option string)
  (root : list (string * h5node)) (w : world) :
  dict_get (fs w) infile = Some (HDF5 root) ->
  truthy_str datasets = false ->
  H5py.entry (List.length (objs w)) (snd (loadMat infile datasets w))
  = Some (H5Entry (List.length (objs w)) true (Group root) true).
Proof.
  intros Hfs Hfalsy. unfold loadMat. rewrite Hfalsy.
  set (n := List.length (objs w)).
  set (e0 := H5Entry n true (Group root) true).
  set (w1 := World (fs w) (objs w ++ [e0])).
  assert (Hopen : loadMat_open infile w = (Ok (MFile n), w1)).
  { unfold loadMat_open, try_except.
    rewrite (bind_ok _ (File_hdf5 _ _ Hfs)). reflexivity. }
  rewrite (bind_ok _ Hopen).
  assert (He0 : H5py.entry n w1 = Some e0) by apply entry_new.
  pose proof (monotone_loadMat_default (MFile n) w1) as Hext.
  pose proof (@loadMat_default_rebinds (MFile n) w1) as Hdict.
  unfold bind.
  destruct (loadMat_default (MFile n) w1) as [[env | e] w2]; cbn [snd] in *.
  - specialize (Hdict w2 env eq_refl).
    destruct (fst env) as [f | d]; [discriminate | ].
    unfold ret at 1. destruct (snd env); cbn;
      exact (@extends_entry w1 w2 n e0 Hext He0).
  - exact (@extends_entry w1 w2 n e0 Hext He0).
Qed.

(** When the call returns, it returns the array as it is stored (squeezed):
    the transposition of line 78 is never reached.  Here for a file whose
    only entry is a dataset. *)
Lemma loadMat_default_hdf5_single (infile key : string) (a : ndarray) (w : world) :
  dict_get (fs w) infile = Some (HDF5 [(key, Dataset a)]) ->
  startswith key "_" = false ->
  fst (loadMat infile None w) = Ok (squeeze a).
Proof.
  intros Hfs Hpub. unfold loadMat. cbn [truthy_str].
  set (n := List.length (objs w)).
  set (root := [(key, Dataset a)]).
  set (e0 := H5Entry n true (Group root) true).
  set (e1 := H5Entry n false (Dataset a) true).
  set (w1 := World (fs w) (objs w ++ [e0])).
  set (w2 := World (fs w) ((objs w ++ [e0]) ++ [e1])).
  assert (Hopen : loadMat_open infile w = (Ok (MFile n), w1)).
  { unfold loadMat_open, try_except.
    rewrite (bind_ok _ (File_hdf5 _ _ Hfs)). reflexivity. }
  rewrite (bind_ok _ Hopen).
  assert (He0 : H5py.entry n w1 = Some e0) by apply entry_new.
  assert (Hlen : List.length (objs w ++ [e0]) = S n).
  { rewrite length_app. cbn [List.length]. fold n. lia. }
  assert (Hkeys : container_keys (MFile n) w1 = (Ok [key], w1)).
  { unfold container_keys, H5py.keys. rewrite He0. reflexivity. }
  assert (Hget : H5py.getitem n key w1 = (Ok (S n), w2)).
  { rewrite (@getitem_member n key w1 e0 root (Dataset a) He0 eq_refl eq_refl).
    - unfold w1, w2. cbn [objs fs]. now rewrite Hlen.
    - unfold root. cbn. now rewrite String.eqb_refl. }
  assert (Harr : H5py.asarray (S n) w2 = (Ok a, w2)).
  { apply asarray_dataset with e1; try reflexivity.
    unfold w2. rewrite <- Hlen. apply entry_new. }
  assert (Hdef : loadMat_default (MFile n) w1
                 = (Ok (MDict [(key, VH5 (S n))], Some (squeeze a)), w2)).
  { unfold loadMat_default.
    rewrite (bind_ok _ Hkeys). rewrite (bind_ok _ Hkeys).
    cbn [filter]. rewrite Hpub. cbn [filter str_in existsb negb for_].
    unfold container_getitem at 1. unfold bind. rewrite Hget.
    unfold ret, lift. cbn [dict_set dict_keys map fst].
    change (list_getitem [key] 0) with (Ok key).
    cbn [container_getitem dict_get]. rewrite String.eqb_refl.
    unfold ret. cbn [np_asarray is_h5py_File]. rewrite Harr. reflexivity. }
  rewrite (bind_ok _ Hdef). reflexivity.
Qed.

(* ------------------------------------------------------------------ *)
(** *** loadH5 *)

Lemma keys_invalid_raises (o : h5obj) (w : world) (e : h5entry) :
  H5py.entry o w = Some e -> h_valid e = false ->
  exists x, H5py.keys o w = (Raise x, w).
Proof.
  intros He Hv. unfold H5py.keys. rewrite He, Hv.
  destruct (h_node e); eexists; reflexivity.
Qed.

Lemma loadH5_opens (infile : string) (root : list (string * h5node)) (w : world)
  (B : Type) (k : h5obj -> M B) :
  dict_get (fs w) infile = Some (HDF5 root) ->
  (ex <- os_path_exists infile ;;
   assert_ ex ;;;
   h5 <- try_except (H5py.File infile) OSError
           (fun _ => raise Warning "File cannot be loaded.") ;;
   k h5) w
  = k (List.length (objs w))
      (World (fs w)
         (objs w ++ [H5Entry (List.length (objs w)) true (Group root) true])).
Proof.
  intros Hfs. unfold bind at 1. unfold os_path_exists. rewrite Hfs.
  unfold assert_. unfold bind at 1. unfold ret at 1.
  unfold bind at 1. unfold try_except. rewrite (File_hdf5 _ _ Hfs). reflexivity.
Qed.

(** A group that the file does not have: the reader fails with the
    missing-group warning, and returns no mapping. *)
Lemma loadH5_group_absent (infile g : string) (datasets : option (list string))
  (root : list (string * h5node)) (w : world) :
  dict_get (fs w) infile = Some (HDF5 root) ->
  g <> "" ->
  dict_get root g = None ->
  fst (loadH5 infile datasets (Some g) w)
  = Raise (Exn Warning ("File does not have group " ++ g ++ ".")).
Proof.
  intros Hfs Hg Hroot. unfold loadH5. rewrite (@loadH5_opens infile root w _ _ Hfs).
  set (n := List.length (objs w)).
  set (e0 := H5Entry n true (Group root) true).
  set (w1 := World (fs w) (objs w ++ [e0])).
  assert (He0 : H5py.entry n w1 = Some e0) by apply entry_new.
  unfold loadH5_resolve. cbn [truthy_str].
  destruct (String.eqb_spec g ""); [contradiction | ]. cbn [negb].
  unfold bind at 1. unfold try_except.
  rewrite (bind_raise _
             (@getitem_absent n g w1 e0 root He0 eq_refl eq_refl Hroot)).
  reflexivity.
Qed.


(** The loop of lines 158-162 on an open file or group: the keys before
    the first absent one are read, the absent one stops the loop with the
    missing-attribute warning. *)
Lemma loadH5_loop_key_absent (h : h5obj) (e : h5entry)
  (root : list (string * h5node)) (k : string) (post : list string) :
  h_valid e = true -> h_node e = Group root ->
  dict_get root k = None ->
  forall (pre : list string) (data : list (string * ndarray)) (w : world),
    H5py.entry h w = Some e ->
    Forall (fun k' => exists a, dict_get root k' = Some (Dataset a)) pre ->
    fst (for_ (pre ++ k :: post)
           (fun data k =>
              try_except
                (o <- H5py.getitem h k ;;
                 a <- H5py.asarray o ;;
                 ret (dict_set data k a))
                KeyError
                (fun _ => raise Warning ("File does not have attribute " ++ k ++ ".")))
           data w)
    = Raise (Exn Warning ("File does not have attribute " ++ k ++ ".")).
Proof.
  intros Hv Hn Hk. induction pre as [ | x pre IH]; intros data w He Hpre.
  - cbn [app for_]. unfold bind at 1. unfold try_except.
    rewrite (bind_raise _ (@getitem_absent h k w e root He Hv Hn Hk)).
    reflexivity.
  - inversion Hpre as [ | ? ? [a Ha] Hpre']; subst.
    cbn [app for_]. unfold bind at 1. unfold try_except.
    set (w' := World (fs w) (objs w ++ [H5Entry (h_file e) false (Dataset a) true])).
    assert (Hget : H5py.getitem h x w = (Ok (List.length (objs w)), w'))
      by apply (@getitem_member h x w e root (Dataset a) He Hv Hn Ha).
    assert (Harr : H5py.asarray (List.length (objs w)) w' = (Ok a, w')).
    { apply asarray_dataset with (H5Entry (h_file e) false (Dataset a) true);
        try reflexivity. apply entry_new. }
    rewrite (bind_ok _ Hget), (bind_ok _ Harr). unfold ret at 1.
    apply IH; [ | assumption].
    apply (@entry_old w (fs w) _ h e He).
Qed.

(** Without a group, a requested key that the file does not have makes the
    reader fail with the missing-attribute warning; no mapping is
    returned, whatever was read before. *)
Lemma loadH5_key_absent (infile k : string) (pre post : list string)
  (root : list (string * h5node)) (w : world) :
  dict_get (fs w) infile = Some (HDF5 root) ->
  Forall (fun k' => exists a, dict_get root k' = Some (Dataset a)) pre ->
  dict_get root k = None ->
  fst (loadH5 infile (Some (pre ++ k :: post)%list) None w)
  = Raise (Exn Warning ("File does not have attribute " ++ k ++ ".")).
Proof.
  intros Hfs Hpre Hk. unfold loadH5.
  rewrite (@loadH5_opens infile root w _ _ Hfs).
  set (n := List.length (objs w)).
  set (e0 := H5Entry n true (Group root) true).
  set (w1 := World (fs w) (objs w ++ [e0])).
  unfold loadH5_resolve. cbn [truthy_str].
  unfold bind at 1. unfold ret at 1.
  assert (Ht : truthy_list (Some (pre ++ k :: post)%list) = true)
    by (destruct pre; reflexivity).
  rewrite Ht. cbn [negb]. unfold bind at 1. unfold ret at 1.
  pose proof (@loadH5_loop_key_absent n e0 root k post eq_refl eq_refl Hk
                pre [] w1 (entry_new _ _ _) Hpre) as Hloop.
  unfold bind.
  destruct (for_ _ _ _ _) as [[data | e] w2]; cbn [fst] in *;
    [discriminate | congruence].
Qed.

(* ------------------------------------------------------------------ *)
(** *** loadH5 without a group: the path that works *)

Lemma dict_set_fresh {V} (d : list (string * V)) (k : string) (v : V) :
  ~ In k (dict_keys d) -> dict_set d k v = (d ++ [(k, v)])%list.
Proof.
  induction d as [ | [k' v'] d IH]; cbn; intros H; auto.
  destruct (String.eqb_spec k' k) as [-> | _]; [tauto | ].
  rewrite IH; tauto.
Qed.

Lemma dict_get_in_nodup {V} (d : list (string * V)) (k : string) (v : V) :
  NoDup (dict_keys d) -> In (k, v) d -> dict_get d k = Some v.
Proof.
  induction d as [ | [k' v'] d IH]; cbn; intros Hnd Hin; [contradiction | ].
  inversion Hnd as [ | ? ? Hk' Hnd']; subst.
  destruct Hin as [Heq | Hin].
  - injection Heq as -> ->. now rewrite String.eqb_refl.
  - destruct (String.eqb_spec k' k) as [-> | _]; [ | now apply IH].
    exfalso. apply Hk'. unfold dict_keys. apply in_map_iff.
    now exists (k, v).
Qed.

(** The loop of lines 158-162 over keys that all name datasets: the
    mapping grows by one entry per key, in order. *)
Lemma loadH5_loop_datasets (h : h5obj) (e : h5entry)
  (root : list (string * h5node)) :
  h_valid e = true -> h_node e = Group root ->
  forall (todo data : list (string * ndarray)) (w : world),
    H5py.entry h w = Some e ->
    (forall k a, In (k, a) todo -> dict_get root k = Some (Dataset a)) ->
    NoDup (dict_keys data ++ dict_keys todo) ->
    exists w',
      for_ (dict_keys todo)
        (fun data k =>
           try_except
             (o <- H5py.getitem h k ;;
              a <- H5py.asarray o ;;
              ret (dict_set data k a))
             KeyError
             (fun _ => raise Warning ("File does not have attribute " ++ k ++ ".")))
        data w
      = (Ok (data ++ todo)%list, w')
      /\ extends w w'.
Proof.
  intros Hv Hn. induction todo as [ | [k a] todo IH]; intros data w He Hroot Hnd.
  - exists w. cbn [dict_keys map for_]. rewrite app_nil_r.
    split; [reflexivity | apply extends_refl].
  - change (dict_keys ((k, a) :: todo)) with (k :: dict_keys todo) in *.
    cbn [for_]. unfold bind at 1. unfold try_except at 1.
    set (w1 := World (fs w) (objs w ++ [H5Entry (h_file e) false (Dataset a) true])).
    assert (Hget : H5py.getitem h k w = (Ok (List.length (objs w)), w1)).
    { apply (@getitem_member h k w e root (Dataset a) He Hv Hn).
      apply Hroot. now left. }
    assert (Harr : H5py.asarray (List.length (objs w)) w1 = (Ok a, w1)).
    { apply asarray_dataset with (H5Entry (h_file e) false (Dataset a) true);
        try reflexivity. apply entry_new. }
    rewrite (bind_ok _ Hget), (bind_ok _ Harr). unfold ret at 1.
    assert (Hfresh : ~ In k (dict_keys data)).
    { intros Hin. apply NoDup_remove_2 in Hnd. apply Hnd.
      apply in_or_app. now left. }
    rewrite (@dict_set_fresh _ data k a Hfresh).
    destruct (IH (data ++ [(k, a)])%list w1) as (w' & Hloop & Hext).
    + apply (@entry_old w (fs w) _ h e He).
    + intros k' a' Hin. apply Hroot. now right.
    + unfold dict_keys in *. rewrite map_app, <- app_assoc. exact Hnd.
    + exists w'. split.
      * rewrite Hloop, <- app_assoc. reflexivity.
      * eapply extends_trans; [ | exact Hext].
        split; [reflexivity | now eexists].
Qed.

(** The run of [loadH5] on a file of datasets, with its final state: the
    table as the loop left it, the objects of the file invalidated. *)
Lemma loadH5_top_level_run (infile : string) (ds : list (string * ndarray))
  (w : world) :
  let root := map (fun kv : string * ndarray => (fst kv, Dataset (snd kv))) ds in
  let n := List.length (objs w) in
  let e0 := H5Entry n true (Group root) true in
  dict_get (fs w) infile = Some (HDF5 root) ->
  NoDup (dict_keys ds) ->
  exists w2,
    H5py.entry n w2 = Some e0
    /\ loadH5 infile None None w
       = (Ok ds, World (fs w2) (map (H5py.invalidate n) (objs w2))).
Proof.
  intros root n e0 Hfs Hnd. unfold loadH5.
  rewrite (@loadH5_opens infile root w _ _ Hfs).
  fold n. fold e0.
  set (w1 := World (fs w) (objs w ++ [e0])).
  assert (He0 : H5py.entry n w1 = Some e0) by apply entry_new.
  unfold loadH5_resolve. cbn [truthy_str truthy_list negb].
  unfold bind at 1. unfold ret at 1.
  assert (Hkeys : H5py.keys n w1 = (Ok (dict_keys ds), w1)).
  { unfold H5py.keys. rewrite He0. cbn [h_node h_valid e0].
    unfold root, dict_keys. rewrite map_map. reflexivity. }
  rewrite (bind_ok _ Hkeys).
  destruct (@loadH5_loop_datasets n e0 root eq_refl eq_refl ds [] w1 He0)
    as (w2 & Hloop & Hext).
  - intros k a Hin. unfold root. rewrite dict_get_map_values.
    now rewrite (@dict_get_in_nodup _ ds k a Hnd Hin).
  - exact Hnd.
  - rewrite (bind_ok _ Hloop). cbn [app].
    pose proof (@extends_entry w1 w2 n e0 Hext He0) as He2.
    rewrite (bind_ok _ (@close_file n w2 e0 He2 eq_refl)).
    exists w2. split; [exact He2 | reflexivity].
Qed.

(** Without a group and without a dataset list, on a file whose members
    are datasets, [loadH5] returns the mapping of exactly the keys of the
    file to their arrays, and the file is closed when it returns. *)
Lemma loadH5_top_level (infile : string) (ds : list (string * ndarray)) (w : world) :
  dict_get (fs w) infile
  = Some (HDF5 (map (fun kv => (fst kv, Dataset (snd kv))) ds)) ->
  NoDup (dict_keys ds) ->
  fst (loadH5 infile None None w) = Ok ds
  /\ H5py.is_open (List.length (objs w)) (snd (loadH5 infile None None w)) = false.
Proof.
  intros Hfs Hnd.
  destruct (@loadH5_top_level_run infile ds w Hfs Hnd) as (w2 & He2 & Hrun).
  rewrite Hrun. cbn [fst snd]. split; [reflexivity | ].
  unfold H5py.is_open.
  rewrite (@entry_invalidated w2 (fs w2) (List.length (objs w)) _ _ He2).
  unfold H5py.invalidate. cbn [h_file]. now rewrite Nat.eqb_refl.
Qed.

(* ------------------------------------------------------------------ *)
(** *** Where [loadMat] and [loadH5] depart from the specification *)

(** C1.  On the HDF5-backed file [v73.mat], which stores [data] as a
    3 x 4 array, asking for ["data"] returns the 4 x 3 transpose, but the
    default selection returns the array 3 x 4, as stored: in the default
    branch [matData] has been rebound to a dictionary when line 77 tests
    its type, so the transposition is skipped. *)
Theorem loadMat_default_not_transposed :
  fst (loadMat "v73.mat" (Some "data") sample_world) = Ok (transpose arr3x4)
  /\ shape (transpose arr3x4) = [4%nat; 3%nat]
  /\ fst (loadMat "v73.mat" None sample_world) = Ok arr3x4
  /\ shape arr3x4 = [3%nat; 4%nat].
Proof. repeat split; reflexivity. Qed.

(** C2.  A name that the container does not hold: the [KeyError] is
    silenced, but [mat] was never assigned and [return mat] raises
    [UnboundLocalError], for the HDF5-backed and for the legacy file. *)
Theorem loadMat_absent_name_raises :
  fst (loadMat "v73.mat" (Some "missing") sample_world)
  = Raise (Exn UnboundLocalError "mat")
  /\ fst (loadMat "v5.mat" (Some "missing") sample_world)
     = Raise (Exn UnboundLocalError "mat").
Proof. split; reflexivity. Qed.

(** C3.  [store.h5] has the group [subgroup] with the dataset [x].  With
    [group="subgroup"] and no dataset list the reader raises instead of
    returning the mapping: the group is looked up (object 1), the file
    (object 0) is closed, and the group went invalid with it before its
    keys are read.  Naming the dataset does not help. *)
Theorem loadH5_group_raises :
  loadH5 "store.h5" None (Some "subgroup") sample_world
  = (Raise (Exn ValueError "Invalid location identifier"),
     World sample_fs
       [H5Entry 0%nat true
          (Group [("a", Dataset arr3x4);
                  ("subgroup", Group [("x", Dataset arr3x4)])]) false;
        H5Entry 0%nat false (Group [("x", Dataset arr3x4)]) false])
  /\ fst (loadH5 "store.h5" (Some ["x"]) (Some "subgroup") sample_world)
     = Raise (Exn ValueError "Invalid location identifier").
Proof. split; reflexivity. Qed.


(** C7.  After [loadMat] on the HDF5-backed [v73.mat] with a name, the
    file it opened (object 0) is closed; after the call without a name it
    is still open: line 81 tests the rebound [matData]. *)
Theorem loadMat_default_leaks_handle :
  H5py.is_open 0%nat (snd (loadMat "v73.mat" (Some "data") sample_world)) = false
  /\ H5py.is_open 0%nat (snd (loadMat "v73.mat" None sample_world)) = true
  /\ H5py.open_files (snd (loadMat "v73.mat" None sample_world))
     = [H5Entry 0%nat true (Group [("data", Dataset arr3x4)]) true].
Proof. repeat split; reflexivity. Qed.

(* ================================================================== *)
(** ** Further properties of the readers *)
(* ================================================================== *)

(* ------------------------------------------------------------------ *)
(** *** No reader writes *)

Lemma readonly_ret {A} (a : A) : readonly (ret a).
Proof. intros w. reflexivity. Qed.

Lemma readonly_raise {A} (c : exn_class) (arg : string) :
  readonly (@raise A c arg).
Proof. intros w. reflexivity. Qed.

Lemma readonly_lift {A} (r : result A) : readonly (lift r).
Proof. intros w. reflexivity. Qed.

Lemma readonly_bind {A B} (m : M A) (f : A -> M B) :
  readonly m -> (forall a, readonly (f a)) -> readonly (bind m f).
Proof.
  intros Hm Hf w. unfold bind. specialize (Hm w).
  destruct (m w) as [[a | e] w1]; cbn [snd] in *; [ | assumption].
  now rewrite Hf.
Qed.

Lemma readonly_try_except {A} (body : M A) (c : exn_class)
  (handler : exn -> M A) :
  readonly body -> (forall e, readonly (handler e)) ->
  readonly (try_except body c handler).
Proof.
  intros Hb Hh w. unfold try_except. specialize (Hb w).
  destruct (body w) as [[a | e] w1]; cbn [snd] in *; [assumption | ].
  destruct (isinstance e c); [ | assumption]. now rewrite Hh.
Qed.

Lemma readonly_try_except_else {A B} (body : M A) (c : exn_class)
  (handler : exn -> M B) (orelse : A -> M B) :
  readonly body -> (forall e, readonly (handler e)) ->
  (forall a, readonly (orelse a)) ->
  readonly (try_except_else body c handler orelse).
Proof.
  intros Hb Hh Ho w. unfold try_except_else. specialize (Hb w).
  destruct (body w) as [[a | e] w1]; cbn [snd] in *; [now rewrite Ho | ].
  destruct (isinstance e c); [ | assumption]. now rewrite Hh.
Qed.

Lemma readonly_for {A S} (xs : list A) (body : S -> A -> M S) :
  (forall acc x, readonly (body acc x)) ->
  forall acc, readonly (for_ xs body acc).
Proof.
  intros Hb. induction xs as [ | x xs IH]; intros acc; cbn [for_].
  - apply readonly_ret.
  - apply readonly_bind; [apply Hb | apply IH].
Qed.

Lemma readonly_if {A} (b : bool) (m1 m2 : M A) :
  readonly m1 -> readonly m2 -> readonly (if b then m1 else m2).
Proof. now destruct b. Qed.

Lemma readonly_assert (cond : bool) : readonly (assert_ cond).
Proof. destruct cond; intros w; reflexivity. Qed.

Lemma readonly_exists (p : string) : readonly (os_path_exists p).
Proof. intros w. reflexivity. Qed.

Lemma readonly_File (path : string) : readonly (H5py.File path).
Proof.
  intros w. unfold H5py.File, H5py.alloc.
  destruct (dict_get (fs w) path) as [[ | | | | ] | ]; reflexivity.
Qed.

Lemma readonly_getitem (o : h5obj) (name : string) :
  readonly (H5py.getitem o name).
Proof.
  intros w. unfold H5py.getitem, H5py.alloc, H5py.invalid, raise.
  destruct (H5py.entry o w) as [e | ]; [ | reflexivity].
  destruct (h_valid e); [ | reflexivity].
  destruct (h_node e) as [a | members]; [reflexivity | ].
  destruct (dict_get members name); reflexivity.
Qed.

Lemma readonly_keys (o : h5obj) : readonly (H5py.keys o).
Proof.
  intros w. unfold H5py.keys, H5py.invalid, raise.
  destruct (H5py.entry o w) as [e | ]; [ | reflexivity].
  destruct (h_node e); [ | destruct (h_valid e)]; reflexivity.
Qed.

Lemma readonly_asarray (o : h5obj) : readonly (H5py.asarray o).
Proof.
  intros w. unfold H5py.asarray, H5py.invalid, raise.
  destruct (H5py.entry o w) as [e | ]; [ | reflexivity].
  destruct (h_valid e); [ | reflexivity].
  destruct (h_node e); reflexivity.
Qed.

Lemma readonly_close (o : h5obj) : readonly (H5py.close o).
Proof.
  intros w. unfold H5py.close, H5py.invalid, raise.
  destruct (H5py.entry o w) as [e | ]; [ | reflexivity].
  destruct (h_is_file e); reflexivity.
Qed.

Lemma readonly_sio_loadmat (path : string) : readonly (sio_loadmat path).
Proof.
  intros w. unfold sio_loadmat.
  destruct (dict_get (fs w) path) as [[ | | | | ] | ]; reflexivity.
Qed.

Lemma readonly_container_getitem (matData : container) (k : string) :
  readonly (container_getitem matData k).
Proof.
  destruct matData as [f | d]; cbn [container_getitem].
  - apply readonly_bind; [apply readonly_getitem | intros; apply readonly_ret].
  - destruct (dict_get d k); [apply readonly_ret | apply readonly_raise].
Qed.

Lemma readonly_container_keys (matData : container) :
  readonly (container_keys matData).
Proof. destruct matData; [apply readonly_keys | apply readonly_ret]. Qed.

Lemma readonly_container_close (matData : container) :
  readonly (container_close matData).
Proof. destruct matData; [apply readonly_close | apply readonly_raise]. Qed.

Lemma readonly_np_asarray (v : pyvalue) : readonly (np_asarray v).
Proof. destruct v; [apply readonly_ret | apply readonly_asarray]. Qed.

Lemma readonly_return_local {A} (name : string) (v : option A) :
  readonly (return_local name v).
Proof. destruct v; [apply readonly_ret | apply readonly_raise]. Qed.

Create HintDb readonly.
#[local] Hint Resolve readonly_ret readonly_raise readonly_lift readonly_bind
  readonly_try_except readonly_try_except_else readonly_for readonly_if
  readonly_assert readonly_exists readonly_File readonly_getitem readonly_keys
  readonly_asarray readonly_close readonly_sio_loadmat
  readonly_container_getitem readonly_container_keys readonly_container_close
  readonly_np_asarray readonly_return_local : readonly.

Lemma readonly_loadMat (infile : string) (datasets : option string) :
  readonly (loadMat infile datasets).
Proof.
  unfold loadMat, loadMat_open, loadMat_named, loadMat_default.
  auto 14 with readonly.
Qed.

Lemma readonly_loadH5 (infile : string) (datasets : option (list string))
  (group : option string) :
  readonly (loadH5 infile datasets group).
Proof.
  unfold loadH5, loadH5_resolve. auto 14 with readonly.
Qed.

(** A computation that changes nothing at all. *)
Lemma stateless_loadGii (infile : string) (datasets : selector)
  (group : option string) :
  stateless (loadGii infile datasets group).
Proof.
  intros w. unfold loadGii, bind, try_except, nb_load, raise.
  destruct (dict_get (fs w) infile) as [[ | | img | | ] | ]; try reflexivity.
  cbn. unfold normalize_selector, darrays_of, bind, ret, raise.
  assert (Hloop : forall darrays idxs acc,
             snd (for_ idxs
                    (fun darray j =>
                       a <- lift (list_getitem darrays j) ;;
                       ret (darray ++ [squeeze a])%list) acc w) = w).
  { intros darrays idxs. induction idxs as [ | j idxs IH]; intros acc; cbn [for_].
    - reflexivity.
    - unfold bind at 1. unfold bind at 1. unfold lift at 1.
      destruct (list_getitem darrays j); [apply IH | reflexivity]. }
  assert (Hgifti : forall darrays idxs,
             snd (let (r, w') :=
                    for_ idxs
                      (fun darray j =>
                         a <- lift (list_getitem darrays j) ;;
                         ret (darray ++ [squeeze a])%list) [] w in
                  match r with
                  | Ok a =>
                      let (r0, w'0) := lift (column_stack a) w' in
                      match r0 with
                      | Ok a0 => (Ok (squeeze a0), w'0)
                      | Raise e => (Raise e, w'0)
                      end
                  | Raise e => (Raise e, w')
                  end) = w).
  { intros darrays idxs. specialize (Hloop darrays idxs []).
    destruct (for_ _ _ _ _) as [[darray | e] w1]; cbn [snd] in *; subst;
      [ | reflexivity].
    unfold lift. destruct (column_stack darray); reflexivity. }
  destruct datasets as [j | a | [ | j l]]; destruct img as [darrays | d | ];
    try reflexivity; apply Hgifti.
Qed.

Lemma stateless_loadSurf (inFile : string) (gifti : bool) :
  stateless (loadSurf inFile gifti).
Proof.
  intros w. unfold loadSurf, bind, nb_load, read_geometry, darrays_of, lift, ret, raise.
  destruct gifti.
  - destruct (dict_get (fs w) inFile) as [[ | | [darrays | d | ] | | ] | ];
      try reflexivity.
    destruct (list_getitem darrays 0); [ | reflexivity].
    destruct (list_getitem darrays 1); reflexivity.
  - destruct (dict_get (fs w) inFile) as [[ | | | | ] | ]; reflexivity.
Qed.

Lemma stateless_loadPick (pyobj : Type) (pickle_loads : list Byte.byte -> result pyobj)
  (D G : Type) (infile : string) (datasets : D) (group : G) :
  stateless (loadPick pickle_loads infile datasets group).
Proof.
  intros w.
  unfold loadPick, bind, os_path_exists, assert_, try_except, open_rb,
    pickle_load, lift, ret, raise.
  destruct (dict_get (fs w) infile) as [[ | | | | bs] | ] eqn:E; cbn;
    rewrite ?E; cbn; try reflexivity.
  destruct (pickle_loads bs) as [o | e]; [reflexivity | ].
  cbn. destruct (isinstance e OSError); reflexivity.
Qed.


(** [load] adds no effect of its own: when the four registered readers
    only read, so does [load]. *)
Theorem load_never_writes (K R : Type) (readers : reader_table K R) :
  (forall p kw, readonly (loadMat_entry readers p kw)) ->
  (forall p kw, readonly (loadGii_entry readers p kw)) ->
  (forall p kw, readonly (loadH5_entry readers p kw)) ->
  (forall p kw, readonly (loadPick_entry readers p kw)) ->
  forall datafile kwargs, readonly (load readers datafile kwargs).
Proof.
  intros Hm Hg Hh Hp datafile kwargs w.
  unfold load, bind, os_path_exists, assert_.
  destruct (dict_get (fs w) datafile); [ | reflexivity].
  unfold ret. cbv beta iota.
  destruct (OsPath.splitext datafile) as [filename file_extension].
  unfold function_map. cbn [dict_get].
  repeat match goal with
         | |- context [if String.eqb ?a ?b then _ else _] =>
             destruct (String.eqb a b)
         end;
    first [apply Hm | apply Hg | apply Hh | apply Hp | reflexivity].
Qed.

Lemma readonly_fmap {A B} (f : A -> B) (m : M A) :
  readonly m -> readonly (fmap f m).
Proof.
  intros H. unfold fmap. apply readonly_bind; [assumption | ].
  intros a. apply readonly_ret.
Qed.

Lemma load_never_writes_witness :
  fs (snd (load readers_no_options "v73.mat" tt sample_world)) = sample_fs
  /\ fs (snd (load readers_no_options "store.h5" tt sample_world)) = sample_fs.
Proof.
  assert (H : forall datafile kwargs,
             readonly (load readers_no_options datafile kwargs)).
  { apply load_never_writes; intros p kw; cbn; apply readonly_fmap.
    - apply readonly_loadMat.
    - intros w. now rewrite stateless_loadGii.
    - apply readonly_loadH5.
    - intros w. now rewrite stateless_loadPick. }
  split; apply H.
Defined.

(** [loadGii], [loadSurf] and [loadPick] leave the world exactly as they
    found it, on success and on failure; so a second call on the same
    arguments gives what the first gave. *)
Theorem stateless_readers_repeat :
  (forall infile datasets group w,
      let first := loadGii infile datasets group w in
      snd first = w /\ loadGii infile datasets group (snd first) = first)
  /\ (forall inFile gifti w,
         let first := loadSurf inFile gifti w in
         snd first = w /\ loadSurf inFile gifti (snd first) = first)
  /\ (forall (pyobj D G : Type) (pickle_loads : list Byte.byte -> result pyobj)
             infile (datasets : D) (group : G) w,
         let first := loadPick pickle_loads infile datasets group w in
         snd first = w
         /\ loadPick pickle_loads infile datasets group (snd first) = first).
Proof.
  repeat split; intros; cbv zeta.
  - apply stateless_loadGii.
  - now rewrite stateless_loadGii.
  - apply stateless_loadSurf.
  - now rewrite stateless_loadSurf.
  - apply stateless_loadPick.
  - now rewrite stateless_loadPick.
Qed.

(* ------------------------------------------------------------------ *)
(** *** loadMat on a legacy MATLAB file *)

Lemma loadMat_open_legacy (infile : string) (vars : list (string * ndarray))
  (w : world) :
  dict_get (fs w) infile = Some (MatV5 vars) ->
  loadMat_open infile w
  = (Ok (MDict (map (fun kv => (fst kv, VArray (snd kv))) vars)), w).
Proof.
  intros Hfs. unfold loadMat_open, try_except, bind, H5py.File, sio_loadmat.
  rewrite Hfs. cbn. rewrite Hfs. reflexivity.
Qed.

(** With a name that the legacy file holds, [loadMat] returns the squeezed
    array, not transposed, and the world is untouched. *)
Theorem loadMat_legacy_named (infile name : string)
  (vars : list (string * ndarray)) (a : ndarray) (w : world) :
  dict_get (fs w) infile = Some (MatV5 vars) ->
  name <> "" ->
  dict_get vars name = Some a ->
  loadMat infile (Some name) w = (Ok (squeeze a), w).
Proof.
  intros Hfs Hname Hvar.
  assert (Htruthy : truthy_str (Some name) = true).
  { cbn. destruct (String.eqb_spec name ""); [contradiction | reflexivity]. }
  unfold loadMat. rewrite Htruthy.
  rewrite (bind_ok _ (@loadMat_open_legacy infile vars w Hfs)).
  unfold loadMat_named, try_except_else, container_getitem, bind.
  rewrite dict_get_map_values, Hvar. reflexivity.
Qed.

Lemma loadMat_legacy_named_witness :
  loadMat "legacy.mat" (Some "X") more_world
  = (Ok (NdArray [3%nat] [1; 2; 3]), more_world).
Proof.
  refine (@loadMat_legacy_named "legacy.mat" "X" _ vec3 more_world eq_refl _ eq_refl).
  discriminate.
Defined.

(** The keys that survive the comprehension of line 71 are the keys that
    do not start with an underscore, in their order. *)
Lemma public_keys (ks : list string) :
  filter (fun k => negb (str_in k (filter (fun k => startswith k "_") ks))) ks
  = filter (fun k => negb (private_key k)) ks.
Proof.
  apply filter_ext_in. intros k Hk. f_equal. unfold str_in, private_key.
  destruct (startswith k "_") eqn:E.
  - apply existsb_exists. exists k. split; [ | apply String.eqb_refl].
    apply filter_In. now split.
  - destruct (existsb _ _) eqn:Ex; [ | reflexivity].
    apply existsb_exists in Ex. destruct Ex as (x & Hx & Heq).
    apply String.eqb_eq in Heq. subst x. apply filter_In in Hx.
    destruct Hx as [_ Hx]. congruence.
Qed.

(** The comprehension of line 71 over a dictionary: each selected key is
    copied with its value. *)
Lemma comprehension_dict (d : list (string * pyvalue)) :
  forall (todo acc : list (string * pyvalue)) (w : world),
    (forall k v, In (k, v) todo -> dict_get d k = Some v) ->
    NoDup (dict_keys acc ++ dict_keys todo) ->
    for_ (dict_keys todo)
      (fun acc k => v <- container_getitem (MDict d) k ;;
                    ret (dict_set acc k v))
      acc w
    = (Ok (acc ++ todo)%list, w).
Proof.
  induction todo as [ | [k v] todo IH]; intros acc w Hd Hnd.
  - cbn. now rewrite app_nil_r.
  - change (dict_keys ((k, v) :: todo)) with (k :: dict_keys todo) in *.
    cbn [for_]. unfold bind at 1. unfold bind at 1.
    cbn [container_getitem]. rewrite (Hd k v (or_introl eq_refl)).
    unfold ret at 1 2.
    assert (Hfresh : ~ In k (dict_keys acc)).
    { intros Hin. apply NoDup_remove_2 in Hnd. apply Hnd.
      apply in_or_app. now left. }
    rewrite (@dict_set_fresh _ acc k v Hfresh).
    rewrite IH.
    + now rewrite <- app_assoc.
    + intros k' v' Hin. apply Hd. now right.
    + unfold dict_keys in *. rewrite map_app, <- app_assoc. exact Hnd.
Qed.

Lemma dict_keys_filter {V} (P : string -> bool) (d : list (string * V)) :
  dict_keys (filter (fun kv => P (fst kv)) d) = filter P (dict_keys d).
Proof.
  unfold dict_keys. induction d as [ | [k v] d IH]; cbn; auto.
  destruct (P k); cbn; now rewrite IH.
Qed.

Lemma NoDup_filter_keys (P : string -> bool) (ks : list string) :
  NoDup ks -> NoDup (filter P ks).
Proof.
  induction 1 as [ | k ks Hk _ IH]; cbn; [constructor | ].
  destruct (P k); [ | assumption]. constructor; [ | assumption].
  intros Hin. apply filter_In in Hin. tauto.
Qed.

(** Without a name, on a legacy file: the keys that start with an
    underscore are dropped and the array of the first remaining key is
    returned, squeezed and not transposed; the world is untouched. *)
Theorem loadMat_legacy_default (infile key : string) (datasets : option string)
  (priv rest : list (string * ndarray)) (a : ndarray) (w : world) :
  dict_get (fs w) infile = Some (MatV5 (priv ++ (key, a) :: rest)) ->
  truthy_str datasets = false ->
  Forall (fun kv => private_key (fst kv) = true) priv ->
  private_key key = false ->
  NoDup (dict_keys (priv ++ (key, a) :: rest)) ->
  loadMat infile datasets w = (Ok (squeeze a), w).
Proof.
  intros Hfs Hfalsy Hpriv Hkey Hnd. unfold loadMat. rewrite Hfalsy.
  rewrite (bind_ok _ (@loadMat_open_legacy infile _ w Hfs)).
  set (d := map (fun kv : string * ndarray => (fst kv, VArray (snd kv)))
                (priv ++ (key, a) :: rest)).
  set (todo := filter (fun kv : string * pyvalue => negb (private_key (fst kv))) d).
  assert (Hkeys_d : dict_keys d = dict_keys (priv ++ (key, a) :: rest)).
  { unfold d, dict_keys. rewrite map_map. reflexivity. }
  assert (Htodo : exists tl, todo = (key, VArray a) :: tl).
  { unfold todo, d. rewrite map_app, filter_app. cbn [map filter fst snd].
    rewrite Hkey. cbn [negb].
    assert (Hnil : filter (fun kv : string * pyvalue => negb (private_key (fst kv)))
                     (map (fun kv : string * ndarray => (fst kv, VArray (snd kv))) priv)
                   = []).
    { clear -Hpriv. induction Hpriv as [ | [k v] priv Hk _ IH]; cbn; auto.
      cbn in Hk. now rewrite Hk. }
    rewrite Hnil. cbn [app]. eexists. reflexivity. }
  destruct Htodo as [tl Htodo].
  assert (Hdef : loadMat_default (MDict d) w
                 = (Ok (MDict todo, Some (squeeze a)), w)).
  { unfold loadMat_default. cbn [container_keys].
    unfold bind at 1. unfold ret at 1. unfold bind at 1. unfold ret at 1.
    rewrite public_keys, <- (dict_keys_filter (fun k => negb (private_key k)) d).
    fold todo.
    unfold bind at 1. rewrite (@comprehension_dict d todo [] w).
    - cbn [app]. rewrite Htodo.
      change (list_getitem (dict_keys ((key, VArray a) :: tl)) 0) with (@Ok string key).
      unfold lift, bind, ret. cbn [container_getitem dict_get].
      rewrite String.eqb_refl. reflexivity.
    - intros k v Hin. apply dict_get_in_nodup.
      + now rewrite Hkeys_d.
      + unfold todo in Hin. apply filter_In in Hin. tauto.
    - cbn [dict_keys map app]. unfold todo.
      rewrite (dict_keys_filter (fun k => negb (private_key k)) d).
      apply NoDup_filter_keys. now rewrite Hkeys_d. }
  rewrite (bind_ok _ Hdef). reflexivity.
Qed.

Lemma loadMat_legacy_default_witness :
  loadMat "legacy.mat" None more_world
  = (Ok (NdArray [3%nat] [1; 2; 3]), more_world).
Proof.
  apply (@loadMat_legacy_default "legacy.mat" "X" None
           [("__header__", NdArray [] [0]); ("__version__", NdArray [] [1]);
            ("__globals__", NdArray [0%nat] [])]
           [("Y", arr3x4)] vec3 more_world).
  - reflexivity.
  - reflexivity.
  - repeat constructor.
  - reflexivity.
  - repeat constructor; cbn; intuition discriminate.
Defined.

(* ------------------------------------------------------------------ *)
(** *** loadMat: the default selection on an HDF5-backed file *)

Lemma dict_get_present {V} (d : list (string * V)) (k : string) :
  In k (dict_keys d) -> exists v, dict_get d k = Some v.
Proof.
  induction d as [ | [k' v'] d IH]; cbn; intros H; [contradiction | ].
  destruct (String.eqb_spec k' k) as [_ | Hne]; [now eexists | ].
  apply IH. destruct H; [contradiction | assumption].
Qed.

(** The comprehension of line 71 over an open file: every key of the file
    is looked up, which creates an h5py object and closes none; the first
    entry of the dictionary under construction stays the first. *)
Lemma comprehension_file (f : h5obj) (e : h5entry)
  (root : list (string * h5node)) :
  h_valid e = true -> h_node e = Group root ->
  forall (ks : list string) (k0 : string) (v0 : pyvalue)
         (acc : list (string * pyvalue)) (w : world),
    H5py.entry f w = Some e ->
    (forall k, In k ks -> In k (dict_keys root)) ->
    ~ In k0 ks ->
    exists d w',
      for_ ks
        (fun acc k => v <- container_getitem (MFile f) k ;;
                      ret (dict_set acc k v))
        ((k0, v0) :: acc) w
      = (Ok ((k0, v0) :: d), w')
      /\ extends w w'.
Proof.
  intros Hv Hn. induction ks as [ | k ks IH]; intros k0 v0 acc w He Hks Hk0.
  - exists acc, w. split; [reflexivity | apply extends_refl].
  - destruct (@dict_get_present _ root k (Hks k (or_introl eq_refl))) as [n Hroot].
    cbn [for_]. unfold bind at 1. unfold bind at 1. cbn [container_getitem].
    rewrite (bind_ok _ (@getitem_member f k w e root n He Hv Hn Hroot)).
    unfold ret at 1 2. cbn [dict_set].
    destruct (String.eqb_spec k0 k) as [-> | _];
      [exfalso; apply Hk0; now left | ].
    set (w1 := World (fs w) (objs w ++ [H5Entry (h_file e) false n true])).
    destruct (IH k0 v0 (dict_set acc k (VH5 (List.length (objs w)))) w1)
      as (d & w' & Hloop & Hext).
    + apply (@entry_old w (fs w) _ f e He).
    + intros k' Hin. apply Hks. now right.
    + intros Hin. apply Hk0. now right.
    + exists d, w'. split; [exact Hloop | ].
      eapply extends_trans; [ | exact Hext].
      split; [reflexivity | now eexists].
Qed.

(** Without a name, on an HDF5-backed file whose first key not starting
    with an underscore names a dataset: [loadMat] returns the array of
    that dataset squeezed and not transposed. *)
Theorem loadMat_default_hdf5 (infile key : string) (datasets : option string)
  (priv rest : list (string * h5node)) (a : ndarray) (w : world) :
  dict_get (fs w) infile = Some (HDF5 (priv ++ (key, Dataset a) :: rest)) ->
  truthy_str datasets = false ->
  Forall (fun kv => private_key (fst kv) = true) priv ->
  private_key key = false ->
  NoDup (dict_keys (priv ++ (key, Dataset a) :: rest)) ->
  fst (loadMat infile datasets w) = Ok (squeeze a).
Proof.
  intros Hfs Hfalsy Hpriv Hkey Hnd. unfold loadMat. rewrite Hfalsy.
  set (root := (priv ++ (key, Dataset a) :: rest)%list) in *.
  set (n := List.length (objs w)).
  set (e0 := H5Entry n true (Group root) true).
  set (e1 := H5Entry n false (Dataset a) true).
  set (w1 := World (fs w) (objs w ++ [e0])).
  set (w2 := World (fs w1) (objs w1 ++ [e1])).
  assert (Hopen : loadMat_open infile w = (Ok (MFile n), w1)).
  { unfold loadMat_open, try_except.
    rewrite (bind_ok _ (File_hdf5 _ _ Hfs)). reflexivity. }
  rewrite (bind_ok _ Hopen).
  assert (He0 : H5py.entry n w1 = Some e0) by apply entry_new.
  assert (Hkeys : container_keys (MFile n) w1 = (Ok (dict_keys root), w1)).
  { unfold container_keys, H5py.keys. rewrite He0. reflexivity. }
  (* the public keys: [key] first *)
  assert (Hpub : exists ks, filter (fun k => negb (private_key k)) (dict_keys root)
                            = key :: ks
                            /\ ~ In key ks
                            /\ (forall k, In k ks -> In k (dict_keys root))).
  { exists (filter (fun k => negb (private_key k)) (dict_keys rest)).
    unfold root, dict_keys in *. rewrite map_app in *. cbn [map fst] in *.
    rewrite filter_app. cbn [filter]. rewrite Hkey. cbn [negb].
    assert (Hnil : filter (fun k => negb (private_key k)) (map fst priv) = []).
    { clear -Hpriv. induction Hpriv as [ | [k v] priv Hk _ IH]; cbn; auto.
      cbn in Hk. now rewrite Hk. }
    rewrite Hnil. split; [reflexivity | split].
    - intros Hin. apply filter_In in Hin. destruct Hin as [Hin _].
      apply NoDup_remove_2 in Hnd. apply Hnd. apply in_or_app. now right.
    - intros k Hin. apply filter_In in Hin. destruct Hin as [Hin _].
      apply in_or_app. right. now right. }
  destruct Hpub as (ks & Hfilter & Hfresh & Hsub).
  assert (Hroot : dict_get root key = Some (Dataset a)).
  { apply dict_get_in_nodup; [exact Hnd | ].
    unfold root. apply in_or_app. right. now left. }
  assert (Hget : H5py.getitem n key w1 = (Ok (List.length (objs w1)), w2))
    by apply (@getitem_member n key w1 e0 root (Dataset a) He0 eq_refl eq_refl Hroot).
  assert (He0' : H5py.entry n w2 = Some e0)
    by apply (@entry_old w1 (fs w1) [e1] n e0 He0).
  assert (He1 : H5py.entry (List.length (objs w1)) w2 = Some e1) by apply entry_new.
  destruct (@comprehension_file n e0 root eq_refl eq_refl ks key
              (VH5 (List.length (objs w1))) [] w2 He0' Hsub Hfresh)
    as (d & w3 & Hloop & Hext).
  assert (Hdef : fst (loadMat_default (MFile n) w1)
                 = Ok (MDict ((key, VH5 (List.length (objs w1))) :: d),
                       Some (squeeze a))).
  { unfold loadMat_default.
    rewrite (bind_ok _ Hkeys). rewrite (bind_ok _ Hkeys).
    rewrite public_keys, Hfilter. cbn [for_].
    assert (Hfirst : (v <- container_getitem (MFile n) key ;;
                      ret (dict_set [] key v)) w1
                     = (Ok [(key, VH5 (List.length (objs w1)))], w2)).
    { cbn [container_getitem]. unfold bind at 1.
      rewrite (bind_ok _ Hget). reflexivity. }
    unfold bind at 1. unfold bind at 1. rewrite Hfirst, Hloop.
    change (list_getitem (dict_keys ((key, VH5 (List.length (objs w1))) :: d)) 0)
      with (@Ok string key).
    unfold lift, bind, ret. cbn [container_getitem dict_get].
    rewrite String.eqb_refl. unfold ret. cbn [np_asarray].
    rewrite (@asarray_dataset (List.length (objs w1)) w3 e1 a
               (@extends_entry w2 w3 _ e1 Hext He1) eq_refl eq_refl).
    reflexivity. }
  unfold bind.
  destruct (loadMat_default (MFile n) w1) as [[env | e] w4]; cbn [fst] in Hdef;
    [ | discriminate].
  injection Hdef as ->. reflexivity.
Qed.

Lemma loadMat_default_hdf5_witness :
  fst (loadMat "mixed73.mat" None more_world) = Ok arr3x4.
Proof.
  apply (@loadMat_default_hdf5 "mixed73.mat" "data" None
           [("_meta", Dataset vec3)] [("refs", Group [])] arr3x4 more_world).
  - reflexivity.
  - reflexivity.
  - repeat constructor.
  - reflexivity.
  - repeat constructor; cbn; intuition discriminate.
Defined.

(* ------------------------------------------------------------------ *)
(** *** loadMat: failures, and the shape of what it returns *)

(** A path that holds no file, with or without [.mat] appended (the name
    scipy.io falls back to): both backends fail and the reader raises its
    own warning; nothing is left open. *)
Theorem loadMat_unreadable (infile : string) (datasets : option string)
  (w : world) :
  dict_get (fs w) infile = None ->
  dict_get (fs w) (infile ++ ".mat") = None ->
  loadMat infile datasets w
  = (Raise (Exn Warning "Cannot read with h5py or scipy.io."), w).
Proof.
  intros Hfs _.
  assert (Hopen : loadMat_open infile w
                  = (Raise (Exn Warning "Cannot read with h5py or scipy.io."), w)).
  { unfold loadMat_open, try_except, bind, H5py.File, sio_loadmat.
    rewrite Hfs. cbn. rewrite Hfs. reflexivity. }
  unfold loadMat. now rewrite (bind_raise _ Hopen).
Qed.

Lemma loadMat_unreadable_witness :
  loadMat "absent.mat" (Some "data") more_world
  = (Raise (Exn Warning "Cannot read with h5py or scipy.io."), more_world).
Proof.
  apply (@loadMat_unreadable "absent.mat" (Some "data") more_world);
    reflexivity.
Defined.

Lemma no_public_key (ks : list string) :
  Forall (fun k => private_key k = true) ks ->
  filter (fun k => negb (str_in k (filter (fun k => startswith k "_") ks))) ks = [].
Proof.
  intros H. rewrite public_keys.
  induction H as [ | k ks Hk _ IH]; cbn; auto. now rewrite Hk.
Qed.

(** Without a name, a container all of whose keys start with an underscore
    (an empty container included) has no first key left: the reader fails
    with [IndexError], on either backend. *)
Theorem loadMat_no_public_key (infile : string) (datasets : option string)
  (w : world) :
  truthy_str datasets = false ->
  (exists root, dict_get (fs w) infile = Some (HDF5 root)
                /\ Forall (fun k => private_key k = true) (dict_keys root))
  \/ (exists vars, dict_get (fs w) infile = Some (MatV5 vars)
                   /\ Forall (fun k => private_key k = true) (dict_keys vars)) ->
  fst (loadMat infile datasets w)
  = Raise (Exn IndexError "list index out of range").
Proof.
  intros Hfalsy Hcase. unfold loadMat. rewrite Hfalsy.
  destruct Hcase as [(root & Hfs & Hpriv) | (vars & Hfs & Hpriv)].
  - set (n := List.length (objs w)).
    set (e0 := H5Entry n true (Group root) true).
    set (w1 := World (fs w) (objs w ++ [e0])).
    assert (Hopen : loadMat_open infile w = (Ok (MFile n), w1)).
    { unfold loadMat_open, try_except.
      rewrite (bind_ok _ (File_hdf5 _ _ Hfs)). reflexivity. }
    rewrite (bind_ok _ Hopen).
    assert (He0 : H5py.entry n w1 = Some e0) by apply entry_new.
    assert (Hkeys : container_keys (MFile n) w1 = (Ok (dict_keys root), w1)).
    { unfold container_keys, H5py.keys. rewrite He0. reflexivity. }
    assert (Hdef : loadMat_default (MFile n) w1
                   = (Raise (Exn IndexError "list index out of range"), w1)).
    { unfold loadMat_default.
      rewrite (bind_ok _ Hkeys). rewrite (bind_ok _ Hkeys).
      rewrite (no_public_key Hpriv). reflexivity. }
    now rewrite (bind_raise _ Hdef).
  - rewrite (bind_ok _ (@loadMat_open_legacy infile vars w Hfs)).
    set (d := map (fun kv : string * ndarray => (fst kv, VArray (snd kv))) vars).
    assert (Hk : dict_keys d = dict_keys vars).
    { unfold d, dict_keys. rewrite map_map. reflexivity. }
    assert (Hdef : loadMat_default (MDict d) w
                   = (Raise (Exn IndexError "list index out of range"), w)).
    { unfold loadMat_default. cbn [container_keys].
      unfold bind at 1. unfold ret at 1. unfold bind at 1. unfold ret at 1.
      rewrite Hk, (no_public_key Hpriv). reflexivity. }
    now rewrite (bind_raise _ Hdef).
Qed.

Lemma loadMat_no_public_key_witness :
  fst (loadMat "header_only.mat" None more_world)
  = Raise (Exn IndexError "list index out of range")
  /\ fst (loadMat "private73.mat" None more_world)
     = Raise (Exn IndexError "list index out of range").
Proof.
  split.
  - apply (@loadMat_no_public_key "header_only.mat" None more_world eq_refl).
    right. eexists. split; [reflexivity | repeat constructor].
  - apply (@loadMat_no_public_key "private73.mat" None more_world eq_refl).
    left. eexists. split; [reflexivity | repeat constructor].
Defined.

Lemma returns_ret {A} (a : A) (P : A -> Prop) : P a -> returns (ret a) P.
Proof. intros H w a' w' E. injection E as <- _. exact H. Qed.

Lemma returns_raise {A} (c : exn_class) (arg : string) (P : A -> Prop) :
  returns (@raise A c arg) P.
Proof. intros w a w' E. discriminate. Qed.

Lemma returns_bind {A B} (m : M A) (f : A -> M B) (P : A -> Prop)
  (Q : B -> Prop) :
  returns m P -> (forall a, P a -> returns (f a) Q) -> returns (bind m f) Q.
Proof.
  intros Hm Hf w b w' E. unfold bind in E.
  destruct (m w) as [[a | e] w1] eqn:Em; [ | discriminate].
  exact (Hf a (Hm w a w1 Em) w1 b w' E).
Qed.

Lemma returns_weaken {A} (m : M A) (P Q : A -> Prop) :
  returns m P -> (forall a, P a -> Q a) -> returns m Q.
Proof. intros Hm HPQ w a w' E. apply HPQ. exact (Hm w a w' E). Qed.

Lemma returns_any {A} (m : M A) : returns m (fun _ => True).
Proof. intros w a w' _. exact I. Qed.

Lemma returns_try_except {A} (body : M A) (c : exn_class)
  (handler : exn -> M A) (P : A -> Prop) :
  returns body P -> (forall e, returns (handler e) P) ->
  returns (try_except body c handler) P.
Proof.
  intros Hb Hh w a w' E. unfold try_except in E.
  destruct (body w) as [[a0 | e] w1] eqn:Eb.
  - injection E as <- <-. exact (Hb w a0 w1 Eb).
  - destruct (isinstance e c); [ | discriminate].
    exact (Hh e w1 a w' E).
Qed.

Lemma returns_try_except_else {A B} (body : M A) (c : exn_class)
  (handler : exn -> M B) (orelse : A -> M B) (P : A -> Prop) (Q : B -> Prop) :
  returns body P -> (forall e, returns (handler e) Q) ->
  (forall a, P a -> returns (orelse a) Q) ->
  returns (try_except_else body c handler orelse) Q.
Proof.
  intros Hb Hh Ho w b w' E. unfold try_except_else in E.
  destruct (body w) as [[a | e] w1] eqn:Eb.
  - exact (Ho a (Hb w a w1 Eb) w1 b w' E).
  - destruct (isinstance e c); [ | discriminate].
    exact (Hh e w1 b w' E).
Qed.

Lemma squeezed_transpose (a : ndarray) : squeezed a -> squeezed (transpose a).
Proof.
  unfold squeezed. rewrite shape_transpose. apply Forall_rev.
Qed.

(** What [loadMat] returns never has an axis of length one: every path
    ends in [squeeze], followed at most by a transposition. *)
Theorem loadMat_result_squeezed (infile : string) (datasets : option string)
  (w w' : world) (mat : ndarray) :
  loadMat infile datasets w = (Ok mat, w') -> squeezed mat.
Proof.
  revert w mat w'. change (returns (loadMat infile datasets) squeezed).
  unfold loadMat.
  apply returns_bind with (P := fun _ => True); [apply returns_any | ].
  intros matData _.
  apply returns_bind
    with (P := fun env => forall m, snd env = Some m -> squeezed m).
  - destruct (truthy_str datasets).
    + unfold loadMat_named.
      apply returns_try_except_else with (P := squeezed).
      * apply returns_bind with (P := fun _ => True); [apply returns_any | ].
        intros v _.
        apply returns_bind with (P := fun _ => True); [apply returns_any | ].
        intros a _. apply returns_ret. apply squeeze_squeezed.
      * intros e. apply returns_ret. discriminate.
      * intros m Hm. apply returns_ret. cbn [snd]. intros m' E.
        injection E as <-.
        destruct (is_h5py_File matData); [now apply squeezed_transpose | assumption].
    + unfold loadMat_default.
      repeat (apply returns_bind with (P := fun _ => True);
              [apply returns_any | intros ? _]).
      apply returns_ret. cbn [snd is_h5py_File]. intros m' E.
      injection E as <-. apply squeeze_squeezed.
  - intros env Henv.
    apply returns_bind with (P := fun _ => True); [apply returns_any | ].
    intros _ _. destruct (snd env) as [m | ]; cbn [return_local].
    + apply returns_ret. now apply Henv.
    + apply returns_raise.
Qed.

Lemma loadMat_result_squeezed_witness :
  loadMat "legacy.mat" (Some "X") more_world
  = (Ok (NdArray [3%nat] [1; 2; 3]), more_world)
  /\ squeezed (NdArray [3%nat] [1; 2; 3]).
Proof.
  split; [reflexivity | ].
  apply (@loadMat_result_squeezed "legacy.mat" (Some "X") more_world more_world).
  reflexivity.
Defined.

(** Concrete runs of the three general facts on [loadMat] proved with the
    main properties. *)
Lemma loadMat_named_hdf5_witness :
  fst (loadMat "mixed73.mat" (Some "data") more_world) = Ok (transpose arr3x4)
  /\ H5py.is_open 0%nat (snd (loadMat "mixed73.mat" (Some "data") more_world))
     = false.
Proof.
  refine (@loadMat_named_hdf5 "mixed73.mat" "data" _ arr3x4 more_world
            eq_refl _ eq_refl).
  discriminate.
Defined.


Lemma loadMat_default_leaves_open_witness :
  H5py.entry 0%nat (snd (loadMat "private73.mat" None more_world))
  = Some (H5Entry 0%nat true (Group [("_meta", Dataset vec3)]) true).
Proof.
  apply (@loadMat_default_leaves_open "private73.mat" None
           [("_meta", Dataset vec3)] more_world); reflexivity.
Defined.

(* ------------------------------------------------------------------ *)
(** *** loadGii: images that are not GIFTI, failures, indices *)

(** On an image that is not a GIFTI image the default selector fails: it
    is expanded through [gii.darrays] (line 108) before the type of the
    image is looked at.  With any other selector a volumetric image gives
    its data, squeezed, and any other image the error of line 118. *)
Theorem loadGii_not_gifti (infile : string) (datasets : selector)
  (group : option string) (img : image) (w : world) :
  dict_get (fs w) infile = Some (NbImage img) ->
  (forall darrays, img <> GiftiImage darrays) ->
  loadGii infile datasets group w
  = (match datasets, img with
     | SelList [], _ =>
         Raise (Exn AttributeError "object has no attribute 'darrays'")
     | _, Nifti2Image dataobj => Ok (squeeze dataobj)
     | _, _ => Raise (Exn OSError "Cannot access array data.")
     end, w).
Proof.
  intros Hfs Himg. unfold loadGii, bind, try_except, nb_load. rewrite Hfs.
  destruct img as [darrays | dataobj | ]; [now destruct (Himg darrays) | | ];
    destruct datasets as [j | a | [ | j l]]; reflexivity.
Qed.

Lemma loadGii_not_gifti_witness :
  loadGii "vol.nii" (SelInt 0) None more_world
  = (Ok (NdArray [2%nat; 2%nat] [1; 2; 3; 4]), more_world)
  /\ loadGii "vol.nii" (SelList []) None more_world
     = (Raise (Exn AttributeError "object has no attribute 'darrays'"), more_world)
  /\ loadGii "old.img" (SelInt 0) None more_world
     = (Raise (Exn OSError "Cannot access array data."), more_world).
Proof.
  split; [ | split].
  - apply (@loadGii_not_gifti "vol.nii" (SelInt 0) None _ more_world eq_refl).
    discriminate.
  - apply (@loadGii_not_gifti "vol.nii" (SelList []) None _ more_world eq_refl).
    discriminate.
  - apply (@loadGii_not_gifti "old.img" (SelInt 0) None _ more_world eq_refl).
    discriminate.
Defined.

(** A path that holds no file: the reader raises its warning, which names
    the path. *)
Theorem loadGii_missing_file (infile : string) (datasets : selector)
  (group : option string) (w : world) :
  dict_get (fs w) infile = None ->
  loadGii infile datasets group w
  = (Raise (Exn Warning (infile ++ " cannot be read.")), w).
Proof.
  intros Hfs. unfold loadGii, bind, try_except, nb_load. rewrite Hfs.
  reflexivity.
Qed.

Lemma loadGii_missing_file_witness :
  loadGii "absent.gii" (SelList []) None more_world
  = (Raise (Exn Warning "absent.gii cannot be read."), more_world).
Proof.
  apply (@loadGii_missing_file "absent.gii" (SelList []) None more_world).
  reflexivity.
Defined.

Lemma list_getitem_out_of_range {A} (l : list A) (j : Z) :
  index_in_range (List.length l) j = false ->
  list_getitem l j = Raise (Exn IndexError "list index out of range").
Proof.
  unfold index_in_range, list_getitem. intros H.
  assert (Hr : j < - Z.of_nat (List.length l) \/ Z.of_nat (List.length l) <= j).
  { apply andb_false_iff in H. destruct H as [H | H];
      [apply Z.leb_gt in H | apply Z.ltb_ge in H]; lia. }
  clear H.
  destruct (j <? 0) eqn:Ej.
  - apply Z.ltb_lt in Ej.
    destruct (0 <=? j + Z.of_nat (List.length l)) eqn:E1; [ | reflexivity].
    apply Z.leb_le in E1. lia.
  - apply Z.ltb_ge in Ej.
    destruct (0 <=? j) eqn:E0; [ | reflexivity].
    destruct (j <? Z.of_nat (List.length l)) eqn:E1; [ | reflexivity].
    apply Z.ltb_lt in E1. lia.
Qed.

Lemma list_getitem_negative {A} (l : list A) (j : Z) :
  - Z.of_nat (List.length l) <= j < 0 ->
  list_getitem l j = list_getitem l (j + Z.of_nat (List.length l)).
Proof.
  intros Hj. unfold list_getitem.
  destruct (j <? 0) eqn:Ej; [ | apply Z.ltb_ge in Ej; lia].
  destruct (j + Z.of_nat (List.length l) <? 0) eqn:E1; [ | reflexivity].
  apply Z.ltb_lt in E1. lia.
Qed.

(** The loop of lines 112-113 stops at the first index out of range. *)
Lemma gather_darrays_index_error (darrays : list ndarray) (j : Z)
  (post : list Z) :
  index_in_range (List.length darrays) j = false ->
  forall (pre : list Z) (acc : list ndarray) (w : world),
    Forall (fun i => index_in_range (List.length darrays) i = true) pre ->
    for_ (pre ++ j :: post)
      (fun darray j =>
         a <- lift (list_getitem darrays j) ;;
         ret (darray ++ [squeeze a])%list)
      acc w
    = (Raise (Exn IndexError "list index out of range"), w).
Proof.
  intros Hj. induction pre as [ | i pre IH]; intros acc w Hpre; cbn [app for_].
  - unfold bind at 1. unfold bind at 1. unfold lift at 1.
    now rewrite (list_getitem_out_of_range _ _ Hj).
  - inversion Hpre as [ | ? ? Hi Hpre']; subst.
    unfold bind at 1. unfold bind at 1. unfold lift at 1.
    destruct (list_getitem darrays i) as [a | e] eqn:E.
    + unfold ret at 1. now apply IH.
    + exfalso. unfold index_in_range in Hi. unfold list_getitem in E.
      apply andb_true_iff in Hi. destruct Hi as [Hlo Hhi].
      apply Z.leb_le in Hlo. apply Z.ltb_lt in Hhi.
      destruct (i <? 0) eqn:Ei.
      * apply Z.ltb_lt in Ei.
        destruct (0 <=? i + Z.of_nat (List.length darrays)) eqn:E0;
          [ | apply Z.leb_gt in E0; lia].
        destruct (i + Z.of_nat (List.length darrays) <? Z.of_nat (List.length darrays)) eqn:E1;
          [ | apply Z.ltb_ge in E1; lia].
        cbn [andb] in E.
        destruct (nth_error darrays (Z.to_nat (i + Z.of_nat (List.length darrays)))) eqn:En;
          [discriminate | ].
        apply nth_error_None in En. lia.
      * apply Z.ltb_ge in Ei.
        destruct (0 <=? i) eqn:E0; [ | apply Z.leb_gt in E0; lia].
        destruct (i <? Z.of_nat (List.length darrays)) eqn:E1;
          [ | apply Z.ltb_ge in E1; lia].
        cbn [andb] in E.
        destruct (nth_error darrays (Z.to_nat i)) eqn:En; [discriminate | ].
        apply nth_error_None in En. lia.
Qed.

(** An index outside [-n, n) on an image of [n] data arrays makes the
    reader fail with [IndexError], whatever was gathered before it. *)
Theorem loadGii_index_error (infile : string) (datasets : selector)
  (group : option string) (darrays : list ndarray) (pre post : list Z) (j : Z)
  (w : world) :
  dict_get (fs w) infile = Some (NbImage (GiftiImage darrays)) ->
  selector_indices (List.length darrays) datasets = (pre ++ j :: post)%list ->
  Forall (fun i => index_in_range (List.length darrays) i = true) pre ->
  index_in_range (List.length darrays) j = false ->
  loadGii infile datasets group w
  = (Raise (Exn IndexError "list index out of range"), w).
Proof.
  intros Hfs Hsel Hpre Hj. unfold loadGii.
  unfold bind at 1. unfold try_except, nb_load. rewrite Hfs.
  unfold bind at 1. rewrite normalize_selector_gifti, Hsel.
  unfold bind at 1.
  now rewrite (@gather_darrays_index_error darrays j post Hj pre [] w Hpre).
Qed.

Lemma loadGii_index_error_witness :
  loadGii "thickness.gii" (SelList [1; 2; 0]) None more_world
  = (Raise (Exn IndexError "list index out of range"), more_world)
  /\ loadGii "thickness.gii" (SelInt (-3)) None more_world
     = (Raise (Exn IndexError "list index out of range"), more_world).
Proof.
  split.
  - apply (@loadGii_index_error "thickness.gii" (SelList [1; 2; 0]) None
             _ [1] [0] 2 more_world eq_refl eq_refl);
      [repeat constructor | reflexivity].
  - apply (@loadGii_index_error "thickness.gii" (SelInt (-3)) None
             _ [] [] (-3) more_world eq_refl eq_refl);
      [constructor | reflexivity].
Defined.

Lemma loadGii_single (infile : string) (j : Z) (group : option string)
  (darrays : list ndarray) (w : world) :
  dict_get (fs w) infile = Some (NbImage (GiftiImage darrays)) ->
  loadGii infile (SelInt j) group w
  = (match list_getitem darrays j with
     | Ok a =>
         match column_stack [squeeze a] with
         | Ok stacked => Ok (squeeze stacked)
         | Raise e => Raise e
         end
     | Raise e => Raise e
     end, w).
Proof.
  intros Hfs. unfold loadGii, bind, try_except, nb_load. rewrite Hfs.
  cbn [normalize_selector]. unfold ret, lift. cbn [for_].
  unfold bind, lift, ret.
  destruct (list_getitem darrays j) as [a | e]; [ | reflexivity].
  cbn [app]. destruct (column_stack [squeeze a]); reflexivity.
Qed.

(** A negative index counts from the end: on an image of [n] data arrays
    an index [j] with [-n <= j < 0] selects what [j + n] selects. *)
Theorem loadGii_negative_index (infile : string) (j : Z)
  (group : option string) (darrays : list ndarray) (w : world) :
  dict_get (fs w) infile = Some (NbImage (GiftiImage darrays)) ->
  - Z.of_nat (List.length darrays) <= j < 0 ->
  loadGii infile (SelInt j) group w
  = loadGii infile (SelInt (j + Z.of_nat (List.length darrays))) group w.
Proof.
  intros Hfs Hj.
  rewrite (@loadGii_single infile j group darrays w Hfs).
  rewrite (@loadGii_single infile _ group darrays w Hfs).
  now rewrite (list_getitem_negative darrays Hj).
Qed.

Lemma loadGii_negative_index_witness :
  loadGii "thickness.gii" (SelInt (-1)) None more_world
  = loadGii "thickness.gii" (SelInt 1) None more_world.
Proof.
  apply (@loadGii_negative_index "thickness.gii" (-1) None _ more_world eq_refl).
  cbn. lia.
Defined.

(** An empty selection (an empty index array, or the default selector on
    an image without data arrays) leaves [np.column_stack] nothing to
    stack: the reader fails with its [ValueError]. *)
Theorem loadGii_empty_selection (infile : string) (datasets : selector)
  (group : option string) (darrays : list ndarray) (w : world) :
  dict_get (fs w) infile = Some (NbImage (GiftiImage darrays)) ->
  selector_indices (List.length darrays) datasets = [] ->
  loadGii infile datasets group w
  = (Raise (Exn ValueError "need at least one array to concatenate"), w).
Proof.
  intros Hfs Hsel. unfold loadGii.
  unfold bind at 1. unfold try_except, nb_load. rewrite Hfs.
  unfold bind at 1. rewrite normalize_selector_gifti, Hsel. reflexivity.
Qed.

Lemma loadGii_empty_selection_witness :
  loadGii "empty.gii" (SelList []) None more_world
  = (Raise (Exn ValueError "need at least one array to concatenate"), more_world)
  /\ loadGii "thickness.gii" (SelArray []) None more_world
     = (Raise (Exn ValueError "need at least one array to concatenate"), more_world).
Proof.
  split.
  - apply (@loadGii_empty_selection "empty.gii" (SelList []) None _ more_world
             eq_refl eq_refl).
  - apply (@loadGii_empty_selection "thickness.gii" (SelArray []) None _
             more_world eq_refl eq_refl).
Defined.

(** What [loadGii] returns never has an axis of length one: both branches
    that return end in [squeeze]. *)
Theorem loadGii_result_squeezed (infile : string) (datasets : selector)
  (group : option string) (w w' : world) (darray : ndarray) :
  loadGii infile datasets group w = (Ok darray, w') -> squeezed darray.
Proof.
  revert w darray w'.
  change (returns (loadGii infile datasets group) squeezed).
  unfold loadGii.
  apply returns_bind with (P := fun _ => True); [apply returns_any | ].
  intros gii _.
  apply returns_bind with (P := fun _ => True); [apply returns_any | ].
  intros idxs _. destruct gii as [darrays | dataobj | ].
  - apply returns_bind with (P := fun _ => True); [apply returns_any | ].
    intros gathered _.
    apply returns_bind with (P := fun _ => True); [apply returns_any | ].
    intros stacked _. apply returns_ret. apply squeeze_squeezed.
  - apply returns_ret. apply squeeze_squeezed.
  - apply returns_raise.
Qed.

Lemma loadGii_result_squeezed_witness :
  loadGii "thickness.gii" (SelList []) None more_world
  = (Ok (NdArray [3%nat; 2%nat] [5; 8; 6; 9; 7; 10]), more_world)
  /\ squeezed (NdArray [3%nat; 2%nat] [5; 8; 6; 9; 7; 10]).
Proof.
  split; [reflexivity | ].
  apply (@loadGii_result_squeezed "thickness.gii" (SelList []) None
           more_world more_world).
  reflexivity.
Defined.

(* ------------------------------------------------------------------ *)
(** *** loadH5: selected keys, failures, what stays open *)

(** Without a group, with a list of distinct keys that all name datasets
    of the file: the mapping returned has exactly these keys, in the order
    of the request, each with its array; the file is closed on return. *)
Theorem loadH5_selected (infile : string) (root : list (string * h5node))
  (wanted : list (string * ndarray)) (w : world) :
  dict_get (fs w) infile = Some (HDF5 root) ->
  wanted <> [] ->
  (forall k a, In (k, a) wanted -> dict_get root k = Some (Dataset a)) ->
  NoDup (dict_keys wanted) ->
  fst (loadH5 infile (Some (dict_keys wanted)) None w) = Ok wanted
  /\ H5py.is_open (List.length (objs w))
       (snd (loadH5 infile (Some (dict_keys wanted)) None w)) = false.
Proof.
  intros Hfs Hne Hroot Hnd.
  set (n := List.length (objs w)).
  set (e0 := H5Entry n true (Group root) true).
  set (w1 := World (fs w) (objs w ++ [e0])).
  assert (He0 : H5py.entry n w1 = Some e0) by apply entry_new.
  destruct (@loadH5_loop_datasets n e0 root eq_refl eq_refl wanted [] w1 He0
              Hroot Hnd) as (w2 & Hloop & Hext).
  pose proof (@extends_entry w1 w2 n e0 Hext He0) as He2.
  assert (Hrun : loadH5 infile (Some (dict_keys wanted)) None w
                 = (Ok wanted, World (fs w2) (map (H5py.invalidate n) (objs w2)))).
  { unfold loadH5. rewrite (@loadH5_opens infile root w _ _ Hfs).
    fold n. fold e0. fold w1.
    unfold loadH5_resolve. cbn [truthy_str].
    unfold bind at 1. unfold ret at 1.
    assert (Ht : truthy_list (Some (dict_keys wanted)) = true).
    { destruct wanted; [contradiction | reflexivity]. }
    rewrite Ht. cbn [negb]. unfold bind at 1. unfold ret at 1.
    rewrite (bind_ok _ Hloop). cbn [app].
    rewrite (bind_ok _ (@close_file n w2 e0 He2 eq_refl)). reflexivity. }
  rewrite Hrun. cbn [fst snd]. split; [reflexivity | ].
  unfold H5py.is_open.
  rewrite (@entry_invalidated w2 (fs w2) n n e0 He2).
  unfold H5py.invalidate. cbn [h_file e0]. now rewrite Nat.eqb_refl.
Qed.

Lemma loadH5_selected_witness :
  fst (loadH5 "flat.h5" (Some ["b"; "a"]) None more_world)
  = Ok [("b", vec3); ("a", arr3x4)]
  /\ H5py.is_open 0%nat (snd (loadH5 "flat.h5" (Some ["b"; "a"]) None more_world))
     = false.
Proof.
  apply (@loadH5_selected "flat.h5" _ [("b", vec3); ("a", arr3x4)] more_world
           eq_refl).
  - discriminate.
  - intros k a [E | [E | []]]; injection E as <- <-; reflexivity.
  - repeat constructor; cbn; intuition discriminate.
Defined.

Lemma loadH5_top_level_witness :
  fst (loadH5 "flat.h5" None None more_world) = Ok [("a", arr3x4); ("b", vec3)]
  /\ H5py.is_open 0%nat (snd (loadH5 "flat.h5" None None more_world)) = false.
Proof.
  apply (@loadH5_top_level "flat.h5" [("a", arr3x4); ("b", vec3)] more_world
           eq_refl).
  repeat constructor; cbn; intuition discriminate.
Defined.

Lemma loadH5_key_absent_witness :
  fst (loadH5 "flat.h5" (Some ["a"; "c"; "b"]) None more_world)
  = Raise (Exn Warning "File does not have attribute c.").
Proof.
  apply (@loadH5_key_absent "flat.h5" "c" ["a"] ["b"] _ more_world eq_refl).
  - repeat constructor. eexists. reflexivity.
  - reflexivity.
Defined.


(** A path that holds no file fails the assertion of line 136; a file that
    is not an HDF5 file gives the warning of line 141.  Nothing is
    opened. *)
Theorem loadH5_unreadable (infile : string) (datasets : option (list string))
  (group : option string) (w : world) :
  (dict_get (fs w) infile = None ->
   loadH5 infile datasets group w = (Raise (Exn AssertionError ""), w))
  /\ (forall c, dict_get (fs w) infile = Some c ->
                (forall root, c <> HDF5 root) ->
                loadH5 infile datasets group w
                = (Raise (Exn Warning "File cannot be loaded."), w)).
Proof.
  split.
  - intros Hfs. unfold loadH5, bind, os_path_exists, assert_. now rewrite Hfs.
  - intros c Hfs Hc. unfold loadH5.
    unfold bind at 1. unfold os_path_exists. rewrite Hfs.
    unfold assert_. unfold bind at 1. unfold ret at 1.
    unfold bind at 1. unfold try_except, H5py.File. rewrite Hfs.
    destruct c as [root | | | | ]; [now destruct (Hc root) | | | | ]; reflexivity.
Qed.

Lemma loadH5_unreadable_witness :
  loadH5 "absent.h5" None None more_world
  = (Raise (Exn AssertionError ""), more_world)
  /\ loadH5 "legacy.mat" None None more_world
     = (Raise (Exn Warning "File cannot be loaded."), more_world).
Proof.
  pose proof (@loadH5_unreadable "absent.h5" None None more_world) as [Ha _].
  pose proof (@loadH5_unreadable "legacy.mat" None None more_world) as [_ Hl].
  split.
  - apply Ha. reflexivity.
  - eapply Hl; [reflexivity | discriminate].
Defined.



(* ------------------------------------------------------------------ *)
(** *** loadPick and loadSurf: failures and the native mode *)



(** In native mode [loadSurf] returns the vertices and the faces that the
    FreeSurfer geometry reader gives, in this order. *)
Theorem loadSurf_native (inFile : string) (vertices faces : ndarray) (w : world) :
  dict_get (fs w) inFile = Some (FsGeometry vertices faces) ->
  loadSurf inFile false w = (Ok [vertices; faces], w).
Proof.
  intros H. unfold loadSurf, bind, read_geometry. rewrite H. reflexivity.
Qed.

Lemma loadSurf_native_witness :
  loadSurf "lh.white" false more_world
  = (Ok [NdArray [3%nat; 3%nat] [0;0;0; 1;0;0; 0;1;0];
         NdArray [1%nat; 3%nat] [0; 1; 2]], more_world).
Proof.
  apply (@loadSurf_native "lh.white" _ _ more_world). reflexivity.
Defined.

(** [loadSurf] wraps no error.  In gifti mode a GIFTI image with fewer than
    two data arrays is an [IndexError], an image of another kind an
    [AttributeError]; in either mode a path that holds no file is the
    [FileNotFoundError] of the library. *)
Theorem loadSurf_failures (inFile : string) (w : world) :
  (forall gifti, dict_get (fs w) inFile = None ->
                 loadSurf inFile gifti w
                 = (Raise (Exn FileNotFoundError inFile), w))
  /\ (forall darrays,
         dict_get (fs w) inFile = Some (NbImage (GiftiImage darrays)) ->
         (List.length darrays < 2)%nat ->
         loadSurf inFile true w
         = (Raise (Exn IndexError "list index out of range"), w))
  /\ (forall img,
         dict_get (fs w) inFile = Some (NbImage img) ->
         (forall darrays, img <> GiftiImage darrays) ->
         loadSurf inFile true w
         = (Raise (Exn AttributeError "object has no attribute 'darrays'"), w)).
Proof.
  split; [ | split].
  - intros gifti H.
    destruct gifti; unfold loadSurf, bind, nb_load, read_geometry; rewrite H;
      reflexivity.
  - intros darrays H Hlen. unfold loadSurf, bind, nb_load. rewrite H.
    destruct darrays as [ | v [ | f others]]; cbn in Hlen; try lia; reflexivity.
  - intros img H Himg. unfold loadSurf, bind, nb_load. rewrite H.
    destruct img as [darrays | d | ]; [now destruct (Himg darrays) | | ];
      reflexivity.
Qed.

Lemma loadSurf_failures_witness :
  loadSurf "absent.surf.gii" true more_world
  = (Raise (Exn FileNotFoundError "absent.surf.gii"), more_world)
  /\ loadSurf "empty.gii" true more_world
     = (Raise (Exn IndexError "list index out of range"), more_world)
  /\ loadSurf "vol.nii" true more_world
     = (Raise (Exn AttributeError "object has no attribute 'darrays'"), more_world).
Proof.
  pose proof (@loadSurf_failures "absent.surf.gii" more_world) as (Ha & _ & _).
  pose proof (@loadSurf_failures "empty.gii" more_world) as (_ & He & _).
  pose proof (@loadSurf_failures "vol.nii" more_world) as (_ & _ & Hv).
  split; [ | split].
  - apply Ha. reflexivity.
  - apply (He []); [reflexivity | cbn; lia].
  - eapply Hv; [reflexivity | discriminate].
Defined.

(* ------------------------------------------------------------------ *)
(** *** load: which paths reach which reader *)

Lemma rfind_from_app (c : ascii) (p q : string) (i last : Z) :
  OsPath.rfind_from c (p ++ q) i last
  = OsPath.rfind_from c q (i + Z.of_nat (String.length p))
      (OsPath.rfind_from c p i last).
Proof.
  revert i last. induction p as [ | c' p IH]; intros i last.
  - cbn. f_equal. lia.
  - cbn [append OsPath.rfind_from String.length]. rewrite IH. f_equal. lia.
Qed.

Lemma rfind_from_upper (c : ascii) (p : string) (i last : Z) :
  last < i -> OsPath.rfind_from c p i last < i + Z.of_nat (String.length p).
Proof.
  revert i last. induction p as [ | c' p IH]; intros i last H.
  - cbn. lia.
  - cbn [OsPath.rfind_from String.length].
    specialize (IH (i + 1) (if Ascii.eqb c' c then i else last)).
    assert (Hlt : (if Ascii.eqb c' c then i else last) < i + 1)
      by (destruct (Ascii.eqb c' c); lia).
    specialize (IH Hlt). lia.
Qed.

Lemma skip_leading_dots_found (p : string) (extsep : ascii) (dotIndex : nat) :
  forall (steps filenameIndex i : nat) (ch : ascii),
    (filenameIndex <= i < filenameIndex + steps)%nat ->
    String.get i p = Some ch -> ch <> extsep ->
    OsPath.skip_leading_dots p extsep filenameIndex steps dotIndex
    = (OsPath.prefix_to dotIndex p, OsPath.suffix_from dotIndex p).
Proof.
  induction steps as [ | steps IH]; intros filenameIndex i ch Hi Hget Hch;
    [lia | ].
  cbn [OsPath.skip_leading_dots].
  destruct (String.get filenameIndex p) as [c | ] eqn:E; [ | reflexivity].
  destruct (Ascii.eqb_spec c extsep) as [-> | _]; [ | reflexivity].
  apply (IH (S filenameIndex) i ch); try assumption.
  assert (i <> filenameIndex) by (intros ->; congruence). lia.
Qed.

Lemma get_after (a b : string) (c : ascii) :
  String.get (String.length a) (a ++ String c b) = Some c.
Proof. induction a as [ | c' a IH]; cbn; auto. Qed.

Lemma prefix_to_app (a b : string) :
  OsPath.prefix_to (String.length a) (a ++ b) = a.
Proof.
  unfold OsPath.prefix_to. induction a as [ | c a IH]; cbn.
  - destruct b; reflexivity.
  - now rewrite IH.
Qed.

Lemma suffix_from_app (a b : string) :
  OsPath.suffix_from (String.length a) (a ++ b) = b.
Proof.
  unfold OsPath.suffix_from. induction a as [ | c a IH]; cbn.
  - rewrite Nat.sub_0_r. clear. induction b as [ | c b IH]; cbn; [reflexivity | ].
    now rewrite IH.
  - exact IH.
Qed.

Lemma append_snoc (a b : string) (c : ascii) :
  ((a ++ String c "") ++ b)%string = (a ++ String c b)%string.
Proof. induction a as [ | c' a IH]; cbn; [reflexivity | now rewrite IH]. Qed.

Lemma length_snoc (a : string) (c : ascii) :
  String.length (a ++ String c "") = S (String.length a).
Proof. induction a as [ | c' a IH]; cbn; [reflexivity | now rewrite IH]. Qed.

(** A file name that ends in a character other than a dot or a slash,
    followed by a dot and a suffix without dots and slashes: the suffix
    with its dot is the extension. *)
Lemma splitext_suffix (stem e : string) (c : ascii) :
  c <> "."%char -> c <> "/"%char ->
  ~ In "."%char (list_ascii_of_string e) ->
  ~ In "/"%char (list_ascii_of_string e) ->
  OsPath.splitext (stem ++ String c (String "." e))
  = ((stem ++ String c "")%string, String "." e).
Proof.
  intros Hdot Hsep Hedot Hesep.
  unfold OsPath.splitext, OsPath._splitext, OsPath.rfind.
  rewrite !rfind_from_app. cbn [OsPath.rfind_from].
  destruct (Ascii.eqb_spec c ".") as [Hc | _]; [contradiction | ].
  destruct (Ascii.eqb_spec c "/") as [Hc | _]; [contradiction | ].
  change (Ascii.eqb "." ".") with true. change (Ascii.eqb "." "/") with false.
  cbv beta iota.
  rewrite (@rfind_from_absent "."%char e _ _ Hedot).
  rewrite (@rfind_from_absent "/"%char e _ _ Hesep).
  set (n := String.length stem).
  set (sepIndex := OsPath.rfind_from "/" stem 0 (-1)).
  assert (Hlo : -1 <= sepIndex)
    by (apply rfind_from_lower_bound; lia).
  assert (Hhi : sepIndex < 0 + Z.of_nat n)
    by (apply rfind_from_upper; lia).
  destruct (0 + Z.of_nat n + 1 >? sepIndex) eqn:E;
    [ | rewrite Z.gtb_ltb in E; apply Z.ltb_ge in E; lia].
  rewrite (@skip_leading_dots_found _ "."%char _ _ _ n c).
  - replace (Z.to_nat (0 + Z.of_nat n + 1)) with (String.length (stem ++ String c ""))
      by (rewrite length_snoc; unfold n; lia).
    rewrite <- (append_snoc stem (String "." e) c).
    now rewrite prefix_to_app, suffix_from_app.
  - lia.
  - apply get_after.
  - assumption.
Qed.

Lemma rfind_from_last (c : ascii) (d : string) (i last : Z) :
  OsPath.rfind_from c (d ++ String c "") i last = i + Z.of_nat (String.length d).
Proof.
  rewrite rfind_from_app. cbn [OsPath.rfind_from].
  now rewrite Ascii.eqb_refl.
Qed.

(** A file name without a dot has no extension, whatever dots the
    directories before it have. *)
Lemma splitext_dotted_directory (dir name : string) :
  ~ In "."%char (list_ascii_of_string name) ->
  ~ In "/"%char (list_ascii_of_string name) ->
  OsPath.splitext (dir ++ String "/" name)
  = ((dir ++ String "/" name)%string, "").
Proof.
  intros Hdot Hsep.
  unfold OsPath.splitext, OsPath._splitext, OsPath.rfind.
  rewrite !rfind_from_app. cbn [OsPath.rfind_from].
  change (Ascii.eqb "/" ".") with false. change (Ascii.eqb "/" "/") with true.
  cbv beta iota.
  rewrite (@rfind_from_absent "."%char name _ _ Hdot).
  rewrite (@rfind_from_absent "/"%char name _ _ Hsep).
  assert (Hhi : OsPath.rfind_from "." dir 0 (-1) < 0 + Z.of_nat (String.length dir))
    by (apply rfind_from_upper; lia).
  destruct (OsPath.rfind_from "." dir 0 (-1) >? 0 + Z.of_nat (String.length dir))
    eqn:E; [ | reflexivity].
  apply Z.gtb_lt in E. lia.
Qed.

(** A file name that is one dot and then a suffix without dots has no
    extension: the leading dot belongs to the name. *)
Lemma splitext_hidden (pre e : string) :
  pre = "" \/ (exists d, pre = (d ++ String "/" "")%string) ->
  ~ In "."%char (list_ascii_of_string e) ->
  ~ In "/"%char (list_ascii_of_string e) ->
  OsPath.splitext (pre ++ String "." e) = ((pre ++ String "." e)%string, "").
Proof.
  intros Hpre Hdot Hsep.
  assert (Hlast : OsPath.rfind_from "/" pre 0 (-1)
                  = Z.of_nat (String.length pre) - 1).
  { destruct Hpre as [-> | [d ->]]; [reflexivity | ].
    rewrite rfind_from_last, length_snoc. lia. }
  unfold OsPath.splitext, OsPath._splitext, OsPath.rfind.
  rewrite !rfind_from_app. cbn [OsPath.rfind_from].
  change (Ascii.eqb "." ".") with true. change (Ascii.eqb "." "/") with false.
  cbv beta iota.
  rewrite (@rfind_from_absent "."%char e _ _ Hdot).
  rewrite (@rfind_from_absent "/"%char e _ _ Hsep).
  rewrite Hlast.
  destruct (0 + Z.of_nat (String.length pre) >? Z.of_nat (String.length pre) - 1);
    [ | reflexivity].
  replace (Z.to_nat (0 + Z.of_nat (String.length pre)
                     - (Z.of_nat (String.length pre) - 1 + 1))) with 0%nat by lia.
  reflexivity.
Qed.

(** A path that exists and whose file name ends in a registered extension,
    after at least one character that is neither a dot nor a slash, is
    read by the reader registered for that extension, with the same path
    and the same keyword options, whatever dots and slashes come before. *)
Theorem load_by_file_name (K R : Type) (readers : reader_table K R)
  (stem : string) (c : ascii) (kwargs : K) (w : world) :
  c <> "."%char -> c <> "/"%char ->
  let named e := (stem ++ String c e)%string in
  (dict_get (fs w) (named ".mat") <> None ->
   load readers (named ".mat") kwargs w
   = loadMat_entry readers (named ".mat") kwargs w) /\
  (dict_get (fs w) (named ".gii") <> None ->
   load readers (named ".gii") kwargs w
   = loadGii_entry readers (named ".gii") kwargs w) /\
  (dict_get (fs w) (named ".h5") <> None ->
   load readers (named ".h5") kwargs w
   = loadH5_entry readers (named ".h5") kwargs w) /\
  (dict_get (fs w) (named ".p") <> None ->
   load readers (named ".p") kwargs w
   = loadPick_entry readers (named ".p") kwargs w).
Proof.
  intros Hdot Hsep named.
  repeat split; intros Hex; rewrite load_existing by assumption;
    unfold named; rewrite splitext_suffix by (cbn; intuition discriminate);
    reflexivity.
Qed.

Lemma load_by_file_name_witness :
  fst (load readers_no_options "out/run.1/data.h5" tt more_world)
  = Ok (PMapping [("a", vec3)])
  /\ fst (load readers_no_options "thickness.gii" tt more_world)
     = fst (loadGii_entry readers_no_options "thickness.gii" tt more_world).
Proof.
  split.
  - pose proof (@load_by_file_name unit payload readers_no_options
                  "out/run.1/dat" "a"%char tt more_world) as H.
    destruct H as (_ & _ & H & _); [discriminate | discriminate | ].
    cbv beta iota zeta in H. cbn [append] in H.
    rewrite H by discriminate. reflexivity.
  - pose proof (@load_by_file_name unit payload readers_no_options
                  "thicknes" "s"%char tt more_world) as H.
    destruct H as (_ & H & _); [discriminate | discriminate | ].
    cbv beta iota zeta in H. cbn [append] in H.
    rewrite H by discriminate. reflexivity.
Defined.

(** A path that exists is refused with [KeyError ""], before any reader
    runs and whatever the file holds, when its file name has no dot (also
    when a directory before it has one, as in [sub.mat/readme]) and when
    its file name is a dot followed by a suffix without dots (a file
    named [.mat] or [data/.h5]). *)
Theorem load_no_extension (K R : Type) (readers : reader_table K R)
  (kwargs : K) (w : world) :
  (forall dir name : string,
     ~ In "."%char (list_ascii_of_string name) ->
     ~ In "/"%char (list_ascii_of_string name) ->
     dict_get (fs w) (dir ++ String "/" name) <> None ->
     load readers (dir ++ String "/" name) kwargs w
     = (Raise (Exn KeyError ""), w)) /\
  (forall pre e : string,
     pre = "" \/ (exists d, pre = (d ++ String "/" "")%string) ->
     ~ In "."%char (list_ascii_of_string e) ->
     ~ In "/"%char (list_ascii_of_string e) ->
     dict_get (fs w) (pre ++ String "." e) <> None ->
     load readers (pre ++ String "." e) kwargs w
     = (Raise (Exn KeyError ""), w)).
Proof.
  split.
  - intros dir name Hdot Hsep Hex.
    rewrite load_existing by assumption.
    now rewrite splitext_dotted_directory.
  - intros pre e Hpre Hdot Hsep Hex.
    rewrite load_existing by assumption.
    now rewrite splitext_hidden.
Qed.

Lemma load_no_extension_witness :
  load readers_no_options "sub.mat/readme" tt more_world
  = (Raise (Exn KeyError ""), more_world)
  /\ load readers_no_options ".mat" tt hidden_world
     = (Raise (Exn KeyError ""), hidden_world)
  /\ load readers_no_options "data/.h5" tt hidden_world
     = (Raise (Exn KeyError ""), hidden_world).
Proof.
  split; [ | split].
  - apply (proj1 (@load_no_extension unit payload readers_no_options tt more_world)
             "sub.mat" "readme");
      [cbn; intuition discriminate | cbn; intuition discriminate | discriminate].
  - apply (proj2 (@load_no_extension unit payload readers_no_options tt hidden_world)
             "" "mat");
      [now left | cbn; intuition discriminate | cbn; intuition discriminate
      | discriminate].
  - apply (proj2 (@load_no_extension unit payload readers_no_options tt hidden_world)
             "data/" "h5");
      [right; now exists "data" | cbn; intuition discriminate
      | cbn; intuition discriminate | discriminate].
Defined.

(* ------------------------------------------------------------------ *)
(** *** The result of a reader does not depend on the objects held *)

Lemma same_run_entry (n : nat) (w w0 : world) (o : h5obj) :
  same_run n w w0 ->
  H5py.entry (n + o)%nat w = option_map (rebase n) (H5py.entry o w0).
Proof.
  intros [_ (pre & Hlen & Hobjs)]. unfold H5py.entry. rewrite Hobjs.
  rewrite nth_error_app2 by lia.
  replace (n + o - List.length pre)%nat with o by lia.
  apply nth_error_map.
Qed.

Lemma same_run_length (n : nat) (w w0 : world) :
  same_run n w w0 -> List.length (objs w) = (n + List.length (objs w0))%nat.
Proof.
  intros [_ (pre & Hlen & Hobjs)]. rewrite Hobjs, length_app, length_map. lia.
Qed.

Lemma same_run_alloc (n : nat) (w w0 : world) (e0 : h5entry) :
  same_run n w w0 ->
  same_run n (World (fs w) (objs w ++ [rebase n e0]))
             (World (fs w0) (objs w0 ++ [e0])).
Proof.
  intros [Hfs (pre & Hlen & Hobjs)]. split; [exact Hfs | ].
  exists pre. split; [exact Hlen | ]. cbn [objs].
  now rewrite Hobjs, map_app, <- app_assoc.
Qed.

Lemma invalidate_rebase (n f : nat) (e : h5entry) :
  H5py.invalidate (n + f)%nat (rebase n e) = rebase n (H5py.invalidate f e).
Proof.
  unfold H5py.invalidate, rebase. cbn [h_file h_is_file h_node h_valid].
  destruct (Nat.eqb_spec (n + h_file e)%nat (n + f)%nat) as [E | E],
           (Nat.eqb_spec (h_file e) f) as [E' | E']; try reflexivity; lia.
Qed.

Lemma same_run_start (w : world) :
  same_run (List.length (objs w)) w (World (fs w) []).
Proof.
  split; [reflexivity | ]. exists (objs w). split; [reflexivity | ].
  cbn. now rewrite app_nil_r.
Qed.

Lemma sim_ret {A} (f : A -> A) (n : nat) (a0 : A) :
  simulates f n (ret (f a0)) (ret a0).
Proof. intros w w0 Hw. now split. Qed.

Lemma sim_raise {A} (f : A -> A) (n : nat) (c : exn_class) (arg : string) :
  simulates f n (raise c arg) (raise c arg).
Proof. intros w w0 Hw. now split. Qed.

Lemma sim_lift {A} (f : A -> A) (n : nat) (r0 : result A) :
  simulates f n (lift (map_result f r0)) (lift r0).
Proof. intros w w0 Hw. now split. Qed.

Lemma sim_lift_same {A} (n : nat) (r : result A) :
  simulates (fun a : A => a) n (lift r) (lift r).
Proof. intros w w0 Hw. split; [now destruct r | exact Hw]. Qed.

Lemma sim_bind {A B} (f : A -> A) (g : B -> B) (n : nat)
  (m m0 : M A) (k k0 : A -> M B) :
  simulates f n m m0 ->
  (forall a0, simulates g n (k (f a0)) (k0 a0)) ->
  simulates g n (bind m k) (bind m0 k0).
Proof.
  intros Hm Hk w w0 Hw. destruct (Hm w w0 Hw) as [Hr Hs]. unfold bind.
  destruct (m w) as [r w'], (m0 w0) as [r0 w0']. cbn [fst snd] in *.
  destruct r0 as [a0 | e]; cbn [map_result] in Hr; subst r.
  - now apply Hk.
  - now split.
Qed.

Lemma sim_try_except {A} (f : A -> A) (n : nat) (body body0 : M A)
  (c : exn_class) (handler handler0 : exn -> M A) :
  simulates f n body body0 ->
  (forall e, simulates f n (handler e) (handler0 e)) ->
  simulates f n (try_except body c handler) (try_except body0 c handler0).
Proof.
  intros Hb Hh w w0 Hw. destruct (Hb w w0 Hw) as [Hr Hs]. unfold try_except.
  destruct (body w) as [r w'], (body0 w0) as [r0 w0']. cbn [fst snd] in *.
  destruct r0 as [a0 | e]; cbn [map_result] in Hr; subst r.
  - now split.
  - destruct (isinstance e c); [now apply Hh | now split].
Qed.

Lemma sim_try_except_else {A B} (f : A -> A) (g : B -> B) (n : nat)
  (body body0 : M A) (c : exn_class) (handler handler0 : exn -> M B)
  (orelse orelse0 : A -> M B) :
  simulates f n body body0 ->
  (forall e, simulates g n (handler e) (handler0 e)) ->
  (forall a0, simulates g n (orelse (f a0)) (orelse0 a0)) ->
  simulates g n (try_except_else body c handler orelse)
                (try_except_else body0 c handler0 orelse0).
Proof.
  intros Hb Hh Ho w w0 Hw. destruct (Hb w w0 Hw) as [Hr Hs].
  unfold try_except_else.
  destruct (body w) as [r w'], (body0 w0) as [r0 w0']. cbn [fst snd] in *.
  destruct r0 as [a0 | e]; cbn [map_result] in Hr; subst r.
  - now apply Ho.
  - destruct (isinstance e c); [now apply Hh | now split].
Qed.

Lemma sim_for {A S} (f : S -> S) (n : nat) (xs : list A)
  (body body0 : S -> A -> M S) :
  (forall acc0 x, simulates f n (body (f acc0) x) (body0 acc0 x)) ->
  forall acc0, simulates f n (for_ xs body (f acc0)) (for_ xs body0 acc0).
Proof.
  intros Hbody. induction xs as [ | x xs IH]; intros acc0; cbn [for_].
  - apply sim_ret.
  - apply (@sim_bind _ _ f f); [apply Hbody | exact IH].
Qed.

Lemma sim_assert (n : nat) (cond : bool) :
  simulates (fun u : unit => u) n (assert_ cond) (assert_ cond).
Proof.
  destruct cond; [apply (@sim_ret _ (fun u : unit => u)) | apply sim_raise].
Qed.

Lemma sim_os_path_exists (n : nat) (p : string) :
  simulates (fun b : bool => b) n (os_path_exists p) (os_path_exists p).
Proof.
  intros w w0 Hw. unfold os_path_exists. cbn [fst snd map_result].
  destruct Hw as [Hfs Hobjs]. rewrite Hfs. split; [reflexivity | now split].
Qed.

Lemma rebase_dict_arrays (n : nat) (vars : list (string * ndarray)) :
  rebase_dict n (map (fun kv => (fst kv, VArray (snd kv))) vars)
  = map (fun kv => (fst kv, VArray (snd kv))) vars.
Proof. unfold rebase_dict. rewrite map_map. reflexivity. Qed.

Lemma sim_sio_loadmat (n : nat) (p : string) :
  simulates (rebase_dict n) n (sio_loadmat p) (sio_loadmat p).
Proof.
  intros w w0 Hw. unfold sio_loadmat.
  pose proof Hw as [Hfs _]. rewrite Hfs.
  destruct (dict_get (fs w0) p) as [[ | vars | | | ] | ];
    cbn [fst snd map_result]; try (now split).
  now rewrite rebase_dict_arrays.
Qed.

Lemma sim_File (n : nat) (p : string) :
  simulates (Nat.add n) n (H5py.File p) (H5py.File p).
Proof.
  intros w w0 Hw. unfold H5py.File, H5py.alloc.
  pose proof Hw as [Hfs _]. rewrite Hfs.
  destruct (dict_get (fs w0) p) as [[root | | | | ] | ];
    cbn [fst snd map_result]; try (now split).
  rewrite (same_run_length Hw). split; [reflexivity | ].
  rewrite <- Hfs at 1.
  apply (@same_run_alloc n w w0
           (H5Entry (List.length (objs w0)) true (Group root) true) Hw).
Qed.

Lemma sim_getitem (n : nat) (o : h5obj) (name : string) :
  simulates (Nat.add n) n (H5py.getitem (n + o)%nat name) (H5py.getitem o name).
Proof.
  intros w w0 Hw. unfold H5py.getitem, H5py.invalid, raise.
  rewrite (same_run_entry o Hw).
  destruct (H5py.entry o w0) as [e0 | ]; cbn [option_map]; [ | now split].
  cbn [rebase h_valid h_node h_file].
  destruct (h_valid e0); [ | now split].
  destruct (h_node e0) as [a | members]; [now split | ].
  destruct (dict_get members name) as [nd | ]; [ | now split].
  unfold H5py.alloc. cbn [fst snd map_result].
  rewrite (same_run_length Hw). split; [reflexivity | ].
  apply (@same_run_alloc n w w0 (H5Entry (h_file e0) false nd true) Hw).
Qed.

Lemma sim_keys (n : nat) (o : h5obj) :
  simulates (fun ks : list string => ks) n (H5py.keys (n + o)%nat) (H5py.keys o).
Proof.
  intros w w0 Hw. unfold H5py.keys, H5py.invalid, raise.
  rewrite (same_run_entry o Hw).
  destruct (H5py.entry o w0) as [e0 | ]; cbn [option_map]; [ | now split].
  cbn [rebase h_valid h_node].
  destruct (h_node e0) as [a | members]; [now split | ].
  destruct (h_valid e0); now split.
Qed.

Lemma sim_asarray (n : nat) (o : h5obj) :
  simulates (fun a : ndarray => a) n (H5py.asarray (n + o)%nat) (H5py.asarray o).
Proof.
  intros w w0 Hw. unfold H5py.asarray, H5py.invalid, raise.
  rewrite (same_run_entry o Hw).
  destruct (H5py.entry o w0) as [e0 | ]; cbn [option_map]; [ | now split].
  cbn [rebase h_valid h_node].
  destruct (h_valid e0); [ | now split].
  destruct (h_node e0) as [a | members]; now split.
Qed.

Lemma sim_close (n : nat) (o : h5obj) :
  simulates (fun u : unit => u) n (H5py.close (n + o)%nat) (H5py.close o).
Proof.
  intros w w0 Hw. unfold H5py.close, H5py.invalid, raise.
  rewrite (same_run_entry o Hw).
  destruct (H5py.entry o w0) as [e0 | ]; cbn [option_map]; [ | now split].
  cbn [rebase h_is_file h_file].
  destruct (h_is_file e0); [ | now split].
  cbn [fst snd map_result]. split; [reflexivity | ].
  destruct Hw as [Hfs (pre & Hlen & Hobjs)]. split; [exact Hfs | ].
  exists (map (H5py.invalidate (n + h_file e0)%nat) pre).
  split; [now rewrite length_map | ]. cbn [objs].
  rewrite Hobjs, map_app, !map_map. f_equal.
  apply map_ext. intros e. apply invalidate_rebase.
Qed.

Lemma dict_get_rebase (n : nat) (d : list (string * pyvalue)) (k : string) :
  dict_get (rebase_dict n d) k = option_map (rebase_value n) (dict_get d k).
Proof.
  induction d as [ | [k' v] d IH]; cbn; [reflexivity | ].
  destruct (String.eqb k' k); [reflexivity | exact IH].
Qed.

Lemma dict_keys_rebase (n : nat) (d : list (string * pyvalue)) :
  dict_keys (rebase_dict n d) = dict_keys d.
Proof. unfold dict_keys, rebase_dict. rewrite map_map. reflexivity. Qed.

Lemma dict_set_rebase (n : nat) (d : list (string * pyvalue)) (k : string)
  (v : pyvalue) :
  dict_set (rebase_dict n d) k (rebase_value n v)
  = rebase_dict n (dict_set d k v).
Proof.
  induction d as [ | [k' v'] d IH]; cbn; [reflexivity | ].
  destruct (String.eqb k' k); cbn; [reflexivity | ]. f_equal. exact IH.
Qed.

Lemma sim_container_getitem (n : nat) (c0 : container) (k : string) :
  simulates (rebase_value n) n
    (container_getitem (rebase_container n c0) k) (container_getitem c0 k).
Proof.
  destruct c0 as [f | d]; cbn [rebase_container container_getitem].
  - apply (@sim_bind _ _ (Nat.add n)); [apply sim_getitem | ].
    intros o. apply (@sim_ret _ (rebase_value n) n (VH5 o)).
  - rewrite dict_get_rebase.
    destruct (dict_get d k) as [v | ]; cbn [option_map];
      [apply sim_ret | apply sim_raise].
Qed.

Lemma sim_container_keys (n : nat) (c0 : container) :
  simulates (fun ks : list string => ks) n
    (container_keys (rebase_container n c0)) (container_keys c0).
Proof.
  destruct c0 as [f | d]; cbn [rebase_container container_keys].
  - apply sim_keys.
  - rewrite dict_keys_rebase. apply (@sim_ret _ (fun ks : list string => ks)).
Qed.

Lemma sim_container_close (n : nat) (c0 : container) :
  simulates (fun u : unit => u) n
    (container_close (rebase_container n c0)) (container_close c0).
Proof.
  destruct c0 as [f | d]; cbn [rebase_container container_close].
  - apply sim_close.
  - apply sim_raise.
Qed.

Lemma sim_np_asarray (n : nat) (v0 : pyvalue) :
  simulates (fun a : ndarray => a) n
    (np_asarray (rebase_value n v0)) (np_asarray v0).
Proof.
  destruct v0 as [a | o]; cbn [rebase_value np_asarray].
  - apply (@sim_ret _ (fun a : ndarray => a)).
  - apply sim_asarray.
Qed.

Lemma is_h5py_File_rebase (n : nat) (c0 : container) :
  is_h5py_File (rebase_container n c0) = is_h5py_File c0.
Proof. now destruct c0. Qed.

Lemma sim_loadMat_open (n : nat) (infile : string) :
  simulates (rebase_container n) n (loadMat_open infile) (loadMat_open infile).
Proof.
  unfold loadMat_open. apply sim_try_except.
  - apply (@sim_bind _ _ (Nat.add n)); [apply sim_File | ].
    intros f. apply (@sim_ret _ (rebase_container n) n (MFile f)).
  - intros _. apply sim_try_except; [ | intros _; apply sim_raise].
    apply (@sim_bind _ _ (rebase_dict n)); [apply sim_sio_loadmat | ].
    intros d. apply (@sim_ret _ (rebase_container n) n (MDict d)).
Qed.

Lemma sim_loadMat_named (n : nat) (c0 : container) (datasets : string) :
  simulates (rebase_env n) n
    (loadMat_named (rebase_container n c0) datasets) (loadMat_named c0 datasets).
Proof.
  unfold loadMat_named.
  apply (@sim_try_except_else _ _ (fun a : ndarray => a)).
  - apply (@sim_bind _ _ (rebase_value n)); [apply sim_container_getitem | ].
    intros v. apply (@sim_bind _ _ (fun a : ndarray => a));
      [apply sim_np_asarray | ].
    intros a. apply (@sim_ret _ (fun a : ndarray => a)).
  - intros _. apply (@sim_ret _ (rebase_env n) n (c0, None)).
  - intros mat. cbv beta. rewrite is_h5py_File_rebase.
    apply (@sim_ret _ (rebase_env n) n
             (c0, Some (if is_h5py_File c0 then transpose mat else mat))).
Qed.

Lemma sim_loadMat_default (n : nat) (c0 : container) :
  simulates (rebase_env n) n
    (loadMat_default (rebase_container n c0)) (loadMat_default c0).
Proof.
  unfold loadMat_default.
  apply (@sim_bind _ _ (fun ks : list string => ks));
    [apply sim_container_keys | intros ks; cbv beta zeta].
  apply (@sim_bind _ _ (fun ks : list string => ks));
    [apply sim_container_keys | intros ks'; cbv beta].
  apply (@sim_bind _ _ (rebase_dict n)).
  - apply (@sim_for _ _ (rebase_dict n) n _ _ _ ) with (acc0 := []).
    intros acc0 k.
    apply (@sim_bind _ _ (rebase_value n)); [apply sim_container_getitem | ].
    intros v. rewrite dict_set_rebase. apply sim_ret.
  - intros d. rewrite dict_keys_rebase.
    apply (@sim_bind _ _ (fun k : string => k)).
    + apply sim_lift_same.
    + intros key. cbv beta.
      apply (@sim_bind _ _ (rebase_value n));
        [apply (@sim_container_getitem n (MDict d) key) | ].
      intros v. apply (@sim_bind _ _ (fun a : ndarray => a));
        [apply sim_np_asarray | ].
      intros a. cbn [is_h5py_File].
      apply (@sim_ret _ (rebase_env n) n (MDict d, Some (squeeze a))).
Qed.

Lemma sim_loadMat (n : nat) (infile : string) (datasets : option string) :
  simulates (fun a : ndarray => a) n
    (loadMat infile datasets) (loadMat infile datasets).
Proof.
  unfold loadMat.
  apply (@sim_bind _ _ (rebase_container n)); [apply sim_loadMat_open | ].
  intros matData. apply (@sim_bind _ _ (rebase_env n)).
  - destruct (truthy_str datasets);
      [apply sim_loadMat_named | apply sim_loadMat_default].
  - intros env. cbv beta zeta. unfold rebase_env. cbn [fst snd].
    rewrite is_h5py_File_rebase.
    apply (@sim_bind _ _ (fun u : unit => u)).
    + destruct (is_h5py_File (fst env));
        [apply sim_container_close | apply (@sim_ret _ (fun u : unit => u))].
    + intros _. unfold return_local.
      destruct (snd env) as [a | ];
        [apply (@sim_ret _ (fun a : ndarray => a)) | apply sim_raise].
Qed.

Lemma sim_loadH5_resolve (n : nat) (h5 : h5obj) (group : option string) :
  simulates (Nat.add n) n
    (loadH5_resolve (n + h5)%nat group) (loadH5_resolve h5 group).
Proof.
  unfold loadH5_resolve. destruct (truthy_str group); [ | apply sim_ret].
  apply sim_try_except; [ | intros _; apply sim_raise].
  apply (@sim_bind _ _ (Nat.add n)); [apply sim_getitem | ].
  intros h5Lower. apply (@sim_bind _ _ (fun u : unit => u)); [apply sim_close | ].
  intros _. apply sim_ret.
Qed.

Lemma sim_loadH5 (n : nat) (infile : string) (datasets : option (list string))
  (group : option string) :
  simulates (fun d : list (string * ndarray) => d) n
    (loadH5 infile datasets group) (loadH5 infile datasets group).
Proof.
  unfold loadH5.
  apply (@sim_bind _ _ (fun b : bool => b)); [apply sim_os_path_exists | ].
  intros ex. apply (@sim_bind _ _ (fun u : unit => u)); [apply sim_assert | ].
  intros _. apply (@sim_bind _ _ (Nat.add n)).
  { apply sim_try_except; [apply sim_File | intros _; apply sim_raise]. }
  intros h5. apply (@sim_bind _ _ (Nat.add n)); [apply sim_loadH5_resolve | ].
  intros h5Lower. apply (@sim_bind _ _ (fun ks : list string => ks)).
  { destruct (negb (truthy_list datasets));
      [apply sim_keys | apply (@sim_ret _ (fun ks : list string => ks))]. }
  intros ks. cbv beta.
  apply (@sim_bind _ _ (fun d : list (string * ndarray) => d)).
  - apply (@sim_for _ _ (fun d : list (string * ndarray) => d) n ks) with (acc0 := []).
    intros data k. cbv beta.
    apply sim_try_except; [ | intros _; apply sim_raise].
    apply (@sim_bind _ _ (Nat.add n)); [apply sim_getitem | ].
    intros o. apply (@sim_bind _ _ (fun a : ndarray => a)); [apply sim_asarray | ].
    intros a. apply (@sim_ret _ (fun d : list (string * ndarray) => d)).
  - intros data. cbv beta.
    apply (@sim_bind _ _ (fun u : unit => u)); [apply sim_close | ].
    intros _. apply (@sim_ret _ (fun d : list (string * ndarray) => d)).
Qed.

Lemma map_result_id {A} (r : result A) : map_result (fun a => a) r = r.
Proof. now destruct r. Qed.

Lemma loadMat_from_empty_table (infile : string) (datasets : option string)
  (w : world) :
  fst (loadMat infile datasets w)
  = fst (loadMat infile datasets (World (fs w) [])).
Proof.
  destruct (@sim_loadMat (List.length (objs w)) infile datasets w
              (World (fs w) []) (same_run_start w)) as [H _].
  now rewrite H, map_result_id.
Qed.

Lemma loadH5_from_empty_table (infile : string)
  (datasets : option (list string)) (group : option string) (w : world) :
  fst (loadH5 infile datasets group w)
  = fst (loadH5 infile datasets group (World (fs w) [])).
Proof.
  destruct (@sim_loadH5 (List.length (objs w)) infile datasets group w
              (World (fs w) []) (same_run_start w)) as [H _].
  now rewrite H, map_result_id.
Qed.

(** What [loadMat] and [loadH5] return, a value or an exception, is
    determined by the files alone: the h5py objects the process holds when
    the call is made, open or closed, have no part in it. *)
Theorem h5_readers_depend_on_files_only (w w' : world) :
  fs w = fs w' ->
  (forall infile datasets,
      fst (loadMat infile datasets w) = fst (loadMat infile datasets w'))
  /\ (forall infile datasets group,
         fst (loadH5 infile datasets group w)
         = fst (loadH5 infile datasets group w')).
Proof.
  intros Hfs. split; intros.
  - rewrite (loadMat_from_empty_table infile datasets w),
            (loadMat_from_empty_table infile datasets w').
    now rewrite Hfs.
  - rewrite (loadH5_from_empty_table infile datasets group w),
            (loadH5_from_empty_table infile datasets group w').
    now rewrite Hfs.
Qed.

Lemma h5_readers_depend_on_files_only_witness :
  fst (loadMat "mixed73.mat" (Some "data") busy_world)
  = fst (loadMat "mixed73.mat" (Some "data") more_world)
  /\ fst (loadH5 "nested.h5" None (Some "grp") busy_world)
     = fst (loadH5 "nested.h5" None (Some "grp") more_world).
Proof.
  destruct (@h5_readers_depend_on_files_only busy_world more_world eq_refl)
    as [Hmat Hh5].
  split; [apply Hmat | apply Hh5].
Defined.

Lemma repeatable_loadMat (infile : string) (datasets : option string) :
  repeatable (loadMat infile datasets).
Proof.
  intros w.
  rewrite (loadMat_from_empty_table infile datasets (snd (loadMat infile datasets w))).
  rewrite (loadMat_from_empty_table infile datasets w).
  now rewrite readonly_loadMat.
Qed.

Lemma repeatable_loadH5 (infile : string) (datasets : option (list string))
  (group : option string) :
  repeatable (loadH5 infile datasets group).
Proof.
  intros w.
  rewrite (loadH5_from_empty_table infile datasets group
             (snd (loadH5 infile datasets group w))).
  rewrite (loadH5_from_empty_table infile datasets group w).
  now rewrite readonly_loadH5.
Qed.

Lemma repeatable_stateless {A} (m : M A) : stateless m -> repeatable m.
Proof. intros H w. now rewrite H. Qed.


Lemma function_map_entries (K R : Type) (readers : reader_table K R)
  (e : string) (reader : string -> K -> M R) :
  dict_get (function_map readers) e = Some reader ->
  reader = loadMat_entry readers \/ reader = loadGii_entry readers
  \/ reader = loadH5_entry readers \/ reader = loadPick_entry readers.
Proof.
  unfold function_map. cbn [dict_get].
  repeat match goal with
         | |- context [if String.eqb ?a ?b then _ else _] =>
             destruct (String.eqb a b)
         end;
    intros H; inversion H; auto.
Qed.

(** [load] can be called again when the registered readers can: with
    readers that only read and that repeat their result, a second
    [load] of the same path with the same options returns the value, or
    raises the exception, of the first. *)
Theorem load_repeat (K R : Type) (readers : reader_table K R) :
  (forall p kw, readonly (loadMat_entry readers p kw)
                /\ repeatable (loadMat_entry readers p kw)) ->
  (forall p kw, readonly (loadGii_entry readers p kw)
                /\ repeatable (loadGii_entry readers p kw)) ->
  (forall p kw, readonly (loadH5_entry readers p kw)
                /\ repeatable (loadH5_entry readers p kw)) ->
  (forall p kw, readonly (loadPick_entry readers p kw)
                /\ repeatable (loadPick_entry readers p kw)) ->
  forall datafile kwargs, repeatable (load readers datafile kwargs).
Proof.
  intros Hm Hg Hh Hp datafile kwargs w.
  destruct (dict_get (fs w) datafile) as [c | ] eqn:Hex.
  - assert (Hex' : dict_get (fs w) datafile <> None) by congruence.
    rewrite (@load_existing K R readers datafile kwargs w Hex').
    destruct (dict_get (function_map readers) (snd (OsPath.splitext datafile)))
      as [reader | ] eqn:Hreader.
    + assert (Hr : readonly (reader datafile kwargs)
                   /\ repeatable (reader datafile kwargs)).
      { destruct (function_map_entries _ _ Hreader) as [-> | [-> | [-> | ->]]];
          auto. }
      destruct Hr as [Hro Hrep].
      rewrite load_existing by (rewrite Hro; exact Hex').
      rewrite Hreader. apply Hrep.
    + cbn [snd]. rewrite load_existing by exact Hex'. now rewrite Hreader.
  - rewrite (@load_missing_file K R readers datafile kwargs w Hex). cbn [snd].
    now rewrite load_missing_file.
Qed.

Lemma readonly_repeatable_fmap {A B} (f : A -> B) (m : M A) :
  readonly m /\ repeatable m -> readonly (fmap f m) /\ repeatable (fmap f m).
Proof.
  intros [Hro Hrep]. split; [now apply readonly_fmap | ].
  intros w. specialize (Hrep w). unfold fmap, bind, ret in *.
  destruct (m w) as [[a | e] w1]; cbn [fst snd] in *;
    destruct (m w1) as [[a' | e'] w2]; cbn [fst snd] in *; congruence.
Qed.

Lemma load_repeat_witness :
  fst (load readers_no_options "mixed73.mat" tt
         (snd (load readers_no_options "mixed73.mat" tt busy_world)))
  = fst (load readers_no_options "mixed73.mat" tt busy_world).
Proof.
  apply (@load_repeat unit payload readers_no_options);
    intros p kw; cbn; apply readonly_repeatable_fmap; split.
  - apply readonly_loadMat.
  - apply repeatable_loadMat.
  - intros w. now rewrite stateless_loadGii.
  - apply repeatable_stateless, stateless_loadGii.
  - apply readonly_loadH5.
  - apply repeatable_loadH5.
  - intros w. now rewrite stateless_loadPick.
  - apply repeatable_stateless, stateless_loadPick.
Defined.
